(** * The ENOUGH resource-map pipeline: combination stage and childcare features

    A shallow embedding of [pipeline/modules/combine_data.py] (function
    [run]) and of [create_geojson_feature] from
    [pipeline/modules/maryland_excel.py], with the properties of the
    design document stated over it.

    Conventions.
    - A DataFrame is a list of rows in frame order; a row is a record whose
      fields are the columns the code reads or writes. A nullable cell
      (NaN / None) is an [option].
    - Text is ASCII; [str.title], [str.lower] leave bytes outside the
      letters untouched.
    - geopandas/shapely are an interface ([Geo]): the code only calls
      [to_crs], [unary_union] and the [within] predicate.
    - Python's [float()] and [int()] on strings and floats are an interface
      as well ([PyNum]). *)

From stdpp Require Import base option list strings sorting gmap pretty.
From Stdlib Require Import Ascii String ZArith.

Local Open Scope string_scope.

(** ** Python string methods used by the pipeline *)

Module PyStr.

Definition is_upper (c : ascii) : bool :=
  let n := nat_of_ascii c in Nat.leb 65 n && Nat.leb n 90.

Definition is_lower (c : ascii) : bool :=
  let n := nat_of_ascii c in Nat.leb 97 n && Nat.leb n 122.

Definition to_lower (c : ascii) : ascii :=
  if is_upper c then ascii_of_nat (nat_of_ascii c + 32) else c.

Definition to_upper (c : ascii) : ascii :=
  if is_lower c then ascii_of_nat (nat_of_ascii c - 32) else c.

(** [s.replace(a, b)] for one-character [a] and [b]. *)
Fixpoint replace (a b : ascii) (s : string) : string :=
  match s with
  | EmptyString => EmptyString
  | String c s' => String (if Ascii.eqb c a then b else c) (replace a b s')
  end.

(** [s.lower()]. *)
Fixpoint lower (s : string) : string :=
  match s with
  | EmptyString => EmptyString
  | String c s' => String (to_lower c) (lower s')
  end.

(** [s.title()]: a cased character is upper-cased when the character
    before it is not cased, lower-cased otherwise. *)
Fixpoint title_from (previous_is_cased : bool) (s : string) : string :=
  match s with
  | EmptyString => EmptyString
  | String c s' =>
      if is_lower c then
        String (if previous_is_cased then c else to_upper c) (title_from true s')
      else if is_upper c then
        String (if previous_is_cased then to_lower c else c) (title_from true s')
      else String c (title_from false s')
  end.

Definition title : string → string := title_from false.

(** [sep.join(l)]. *)
Fixpoint join (sep : string) (l : list string) : string :=
  match l with
  | [] => EmptyString
  | [x] => x
  | x :: l' => x +:+ sep +:+ join sep l'
  end.

End PyStr.

(** ** pandas operations used by the pipeline *)

Module Pandas.

Section Frames.
Context {A K : Type} `{EqDecision K}.

(** [df.drop_duplicates(subset=key)]: keep the first row of every key
    value (null is a key value like any other). [seen] holds the keys
    already kept. *)
Fixpoint drop_duplicates_from (key : A → K) (seen : list K) (df : list A) : list A :=
  match df with
  | [] => []
  | r :: df' =>
      if decide (key r ∈ seen) then drop_duplicates_from key seen df'
      else r :: drop_duplicates_from key (key r :: seen) df'
  end.

Definition drop_duplicates (key : A → K) (df : list A) : list A :=
  drop_duplicates_from key [] df.
End Frames.

(** [Series.unique()]: distinct values in order of first appearance. *)
Definition unique {K} `{EqDecision K} (s : list K) : list K :=
  drop_duplicates id s.

(** [Series.dropna()]. *)
Definition dropna {K} (s : list (option K)) : list K := omap id s.

(** The groupby aggregation ["first"]: the first non-null entry of the
    column within the group, null when there is none. *)
Definition first {K} (s : list (option K)) : option K := head (dropna s).

(** Group keys of [groupby(key)]: the distinct non-null keys, sorted. *)
Definition string_le (a b : string) : Prop := String.leb a b = true.

#[global] Instance string_le_dec a b : Decision (string_le a b).
Proof. unfold string_le. apply _. Defined.

Definition group_keys (keys : list (option string)) : list string :=
  merge_sort string_le (unique (dropna keys)).

End Pandas.

(** ** The geometry interface *)

Class Geo := {
  number : Type;        (* float64: coordinates and numeric cells *)
  polygon : Type;       (* shapely Polygon / MultiPolygon *)
  to_crs : polygon → polygon;            (* reprojection to EPSG:4326 *)
  unary_union : list polygon → polygon;
  within : number * number → polygon → bool
}.

(** ** combine_data.py *)

Module CombineData.
Section Run.
Context {G : Geo}.

(** A shapely [Point(x, y)]. *)
Definition point : Type := number * number.

(** *** Input tables *)

(** A feature of [input/grantees_raw.geojson]: one row per contributing
    organization, several rows may share a [GEOID20]. *)
Record grantee_row := {
  raw_GEOID20 : option string;
  raw_ORGANIZATION_NAME : option string;
  raw_GOC_TRACK_TYPE : option string;
  raw_geometry : polygon
}.

(** A line of [input/resources.csv] (columns name, type, tag, lat, lng,
    as [osm.py] writes them; an empty name or tag cell reads as null, the
    type is a key of [RESOURCE_TYPES]). *)
Record resource_row := {
  res_name : option string;
  res_type : string;
  res_tag : option string;
  res_lat : number;
  res_lng : number
}.

Record fdic_row := {
  NAMEFULL : option string;
  fdic_geometry : point
}.

(** The ten boolean columns of [ncua_boolean_fields] that are carried over
    unchanged. *)
Record ncua_services := {
  isMainOffice : bool;
  isMdi : bool;
  bilingual_Services : bool;
  credit_Builder : bool;
  financial_Counseling : bool;
  first_Time_Homebuyer_Program : bool;
  inSchoolBranch : bool;
  low_cost_wire_transfers : bool;
  no_Cost_Tax_Preparation : bool;
  no_Cost_Share_Drafts : bool
}.

Record ncua_row := {
  creditUnionName : option string;
  palS_I : bool;
  palS_II : bool;
  ncua_kept : ncua_services;
  ncua_geometry : point
}.

Record childcare_row := {
  cc_name : option string;
  cc_tag_label : option string;
  cc_quality : option number;
  cc_geometry : point
}.

(** A feature of either food-bank file. *)
Record foodbank_row := {
  fb_name : option string;
  fb_type : option string;
  fb_geometry : point
}.

(** *** Derived tables *)

(** A row of [grantees_processed] and of [grantees]. The key is not
    nullable: [groupby] drops the null group. *)
Record grantee := {
  GEOID20 : string;
  geometry : polygon;
  ORGANIZATION_NAME : string;
  GOC_TRACK_TYPE : option string
}.

(** The financial service flags: the carried columns and the derived
    [payday_alternative_loans]. *)
Record ncua_flags := {
  kept : ncua_services;
  payday_alternative_loans : bool
}.

(** A row of [all_points] as [pd.concat] builds it: the union of the
    columns of the five frames, null where a frame lacks the column. *)
Record canonical_point := {
  name : option string;
  type : string;
  tag : option string;
  lat : option number;
  lng : option number;
  flags : option ncua_flags;
  quality : option number;
  pt_geometry : point
}.

(** [all_points] once the two label columns are assigned. *)
Record labelled_point := {
  base : canonical_point;
  type_label : string;
  tag_label : option string
}.

(** A row of [points_with_tracts]. *)
Record joined_point := {
  labelled : labelled_point;
  pt_GEOID20 : option string;
  is_grantee : bool          (* the column named grantee *)
}.

(** A line of [grantee_points.csv]: the columns of [points_with_tracts]
    without [geometry]; [lng] and [lat] are overwritten with the
    coordinates of the geometry. *)
Record csv_row := {
  csv_name : option string;
  csv_type : string;
  csv_tag : option string;
  csv_lat : number;
  csv_lng : number;
  csv_flags : option ncua_flags;
  csv_quality : option number;
  csv_type_label : string;
  csv_tag_label : option string;
  csv_GEOID20 : option string;
  csv_grantee : bool
}.

(** *** 1. Grantee processing (lines 57-68) *)

(** [grantees_gdf.to_crs(epsg=4326)] *)
Definition reproject (grantees_gdf : list grantee_row) : list grantee_row :=
  (λ r, {| raw_GEOID20 := raw_GEOID20 r;
           raw_ORGANIZATION_NAME := raw_ORGANIZATION_NAME r;
           raw_GOC_TRACK_TYPE := raw_GOC_TRACK_TYPE r;
           raw_geometry := to_crs (raw_geometry r) |}) <$> grantees_gdf.

(** [grantees_gdf.drop_duplicates(subset="GEOID20")[["GEOID20", "geometry"]]] *)
Definition unique_geometry (grantees_gdf : list grantee_row)
  : list (option string * polygon) :=
  (λ r, (raw_GEOID20 r, raw_geometry r))
    <$> Pandas.drop_duplicates raw_GEOID20 grantees_gdf.

(** The rows of one group of [grantees_gdf.groupby("GEOID20")]. *)
Definition group (k : string) (grantees_gdf : list grantee_row) : list grantee_row :=
  filter (λ r, raw_GEOID20 r = Some k) grantees_gdf.

(** [lambda x: "; ".join(x.dropna().unique())] *)
Definition join_names (x : list (option string)) : string :=
  PyStr.join "; " (Pandas.unique (Pandas.dropna x)).

(** [grantees_gdf.groupby("GEOID20").agg(...).reset_index()]: columns
    GEOID20, ORGANIZATION_NAME, GOC_TRACK_TYPE, one row per group in key
    order. *)
Definition grantee_data (grantees_gdf : list grantee_row)
  : list (string * string * option string) :=
  (λ k, (k,
         join_names (raw_ORGANIZATION_NAME <$> group k grantees_gdf),
         Pandas.first (raw_GOC_TRACK_TYPE <$> group k grantees_gdf)))
    <$> Pandas.group_keys (raw_GEOID20 <$> grantees_gdf).

(** [unique_geometry.merge(grantee_data, on="GEOID20")]: inner join in
    the order of the left frame. *)
Definition merge (left : list (option string * polygon))
    (right : list (string * string * option string)) : list grantee :=
  left ≫= λ l,
    (λ r, {| GEOID20 := r.1.1; geometry := l.2;
             ORGANIZATION_NAME := r.1.2; GOC_TRACK_TYPE := r.2 |})
      <$> filter (λ r, l.1 = Some r.1.1) right.

Definition grantees_processed (grantees_gdf : list grantee_row) : list grantee :=
  merge (unique_geometry grantees_gdf) (grantee_data grantees_gdf).

(** [GOC_TRACK_TYPE.notna() & (GOC_TRACK_TYPE != "")] *)
Definition has_track (g : grantee) : Prop :=
  GOC_TRACK_TYPE g ≠ None ∧ GOC_TRACK_TYPE g ≠ Some "".

#[global] Instance has_track_dec g : Decision (has_track g).
Proof. unfold has_track. apply _. Defined.

Definition grantees (grantees_gdf : list grantee_row) : list grantee :=
  filter has_track (grantees_processed grantees_gdf).

(** *** 2-5. The canonical point set (lines 70-139) *)

(** [gpd.points_from_xy(points_df.lng, points_df.lat)] over the rows of
    [resources.csv], which keep their lat and lng columns. *)
Definition points_gdf (points_df : list resource_row) : list canonical_point :=
  (λ r, {| name := res_name r; type := res_type r; tag := res_tag r;
           lat := Some (res_lat r); lng := Some (res_lng r);
           flags := None; quality := None;
           pt_geometry := (res_lng r, res_lat r) |}) <$> points_df.

Definition fdic_gdf (fdic : list fdic_row) : list canonical_point :=
  (λ r, {| name := NAMEFULL r; type := "financial"; tag := Some "bank";
           lat := None; lng := None; flags := None; quality := None;
           pt_geometry := fdic_geometry r |}) <$> fdic.

Definition ncua_gdf (ncua : list ncua_row) : list canonical_point :=
  (λ r, {| name := creditUnionName r; type := "financial";
           tag := Some "credit_union";
           lat := None; lng := None;
           flags := Some {| kept := ncua_kept r;
                            payday_alternative_loans := palS_I r || palS_II r |};
           quality := None;
           pt_geometry := ncua_geometry r |}) <$> ncua.

Definition financial_gdf (fdic : list fdic_row) (ncua : list ncua_row)
  : list canonical_point :=
  fdic_gdf fdic ++ ncua_gdf ncua.

(** [tag_label.str.lower().str.replace(" ", "_")] *)
Definition childcare_gdf (childcare : list childcare_row) : list canonical_point :=
  (λ r, {| name := cc_name r; type := "childcare";
           tag := (λ l, PyStr.replace " " "_" (PyStr.lower l)) <$> cc_tag_label r;
           lat := None; lng := None; flags := None;
           quality := cc_quality r;
           pt_geometry := cc_geometry r |}) <$> childcare.

(** Both food-bank frames: the type column moves to tag. *)
Definition food_gdf (food : list foodbank_row) : list canonical_point :=
  (λ r, {| name := fb_name r; type := "food_pantry"; tag := fb_type r;
           lat := None; lng := None; flags := None; quality := None;
           pt_geometry := fb_geometry r |}) <$> food.

Definition concat_points (points_df : list resource_row) (fdic : list fdic_row)
    (ncua : list ncua_row) (childcare : list childcare_row)
    (mfb cafb : list foodbank_row) : list canonical_point :=
  points_gdf points_df ++ financial_gdf fdic ncua ++ childcare_gdf childcare
    ++ food_gdf mfb ++ food_gdf cafb.

(** *** 6. Labels and spatial join (lines 141-154) *)

(** [.str.replace("_", " ").str.title()] *)
Definition label (s : string) : string := PyStr.title (PyStr.replace "_" " " s).

Definition add_labels (p : canonical_point) : labelled_point :=
  {| base := p; type_label := label (type p); tag_label := label <$> tag p |}.

Definition geom (p : labelled_point) : point := pt_geometry (base p).

(** [grantees_gdf.unary_union]: the union of the polygons of every raw
    row. *)
Definition md_tracts_union (grantees_gdf : list grantee_row) : polygon :=
  unary_union (raw_geometry <$> grantees_gdf).

(** [all_points[all_points.within(md_tracts_union)]] *)
Definition points_in_md (all_points : list labelled_point) (mask : polygon)
  : list labelled_point :=
  filter (λ p, within (geom p) mask = true) all_points.

(** The rows [gpd.sjoin(left, right, how="left", predicate="within")]
    produces for one left row: one per right row whose polygon the point
    is within, or a single row with a null key when there is none. The
    matches of one point are listed in the order of the right frame (the
    library takes them from its spatial index). The [index_right] column,
    dropped on the next line, is left out. *)
Definition sjoin_row (right : list (string * polygon)) (p : labelled_point)
  : list (labelled_point * option string) :=
  match filter (λ r, within (geom p) r.2 = true) right with
  | [] => [(p, None)]
  | matches => (λ r, (p, Some r.1)) <$> matches
  end.

Definition sjoin (left : list labelled_point) (right : list (string * polygon))
  : list (labelled_point * option string) :=
  left ≫= sjoin_row right.

(** The right rows one point is matched with, as rows of [grantees]. *)
Definition containing (p : labelled_point) (grantees : list grantee) : list grantee :=
  filter (λ g, within (geom p) (geometry g) = true) grantees.

(** [grantees[["GEOID20", "geometry"]]] *)
Definition join_targets (grantees : list grantee) : list (string * polygon) :=
  (λ g, (GEOID20 g, geometry g)) <$> grantees.

Definition grantee_geoids (grantees : list grantee) : gset string :=
  list_to_set (GEOID20 <$> grantees).

(** [Series.isin]: a null cell is in no set of strings. *)
Definition isin (cell : option string) (values : gset string) : bool :=
  match cell with
  | Some k => bool_decide (k ∈ values)
  | None => false
  end.

Definition points_with_tracts (all_points : list labelled_point)
    (grantees_gdf : list grantee_row) (grantees : list grantee)
  : list joined_point :=
  (λ r, {| labelled := r.1; pt_GEOID20 := r.2;
           is_grantee := isin r.2 (grantee_geoids grantees) |})
    <$> sjoin (points_in_md all_points (md_tracts_union grantees_gdf))
              (join_targets grantees).

(** *** 7. Output files (lines 156-175) *)

Definition to_csv_row (j : joined_point) : csv_row :=
  let p := base (labelled j) in
  {| csv_name := name p; csv_type := type p; csv_tag := tag p;
     csv_lat := (pt_geometry p).2; csv_lng := (pt_geometry p).1;
     csv_flags := flags p; csv_quality := quality p;
     csv_type_label := type_label (labelled j);
     csv_tag_label := tag_label (labelled j);
     csv_GEOID20 := pt_GEOID20 j; csv_grantee := is_grantee j |}.

Definition grantee_points (points_with_tracts : list joined_point) : list csv_row :=
  to_csv_row <$> filter (λ j, is_grantee j = true) points_with_tracts.

Definition jtype (j : joined_point) : string := type (base (labelled j)).

Definition points_subset (unique_type : string)
    (points_with_tracts : list joined_point) : list joined_point :=
  filter (λ j, jtype j = unique_type) points_with_tracts.

(** The content of a file under [docs/resource_map/assets]. *)
Inductive asset :=
| Csv (rows : list csv_row)
| PointsGeoJSON (features : list joined_point)
| GranteesGeoJSON (features : list grantee).

(** The writes of step 7 in the order the code performs them: the
    extract, one file per value of [type] in order of first appearance,
    the grantee regions. *)
Definition outputs (points_with_tracts : list joined_point)
    (grantees : list grantee) : list (string * asset) :=
  ("grantee_points.csv", Csv (grantee_points points_with_tracts))
    :: ((λ unique_type,
          (unique_type +:+ ".geojson",
           PointsGeoJSON (points_subset unique_type points_with_tracts)))
         <$> Pandas.unique (jtype <$> points_with_tracts))
    ++ [("grantees.geojson", GranteesGeoJSON grantees)].

(** *** The run over the file system *)

Inductive file (A : Type) :=
| Absent                  (* no such path *)
| Unreadable              (* the path exists, reading it raises *)
| Holds (content : A).
Global Arguments Absent {A}.
Global Arguments Unreadable {A}.
Global Arguments Holds {A} content.

Definition file_exists {A} (f : file A) : bool :=
  match f with Absent => false | _ => true end.

(** The files under [input/] and the directory [docs/resource_map/assets]. *)
Record world := {
  grantees_raw_geojson : file (list grantee_row);     (* GRANTEE_CACHE_PATH *)
  resources_csv : file (list resource_row);
  fdic_geojson : file (list fdic_row);
  ncua_geojson : file (list ncua_row);
  childcare_geojson : file (list childcare_row);
  maryland_food_bank_geojson : file (list foodbank_row);
  capital_area_food_bank_geojson : file (list foodbank_row);
  assets : gmap string asset
}.

Definition set_cache (c : file (list grantee_row)) (w : world) : world :=
  {| grantees_raw_geojson := c;
     resources_csv := resources_csv w;
     fdic_geojson := fdic_geojson w;
     ncua_geojson := ncua_geojson w;
     childcare_geojson := childcare_geojson w;
     maryland_food_bank_geojson := maryland_food_bank_geojson w;
     capital_area_food_bank_geojson := capital_area_food_bank_geojson w;
     assets := assets w |}.

Definition set_assets (a : gmap string asset) (w : world) : world :=
  {| grantees_raw_geojson := grantees_raw_geojson w;
     resources_csv := resources_csv w;
     fdic_geojson := fdic_geojson w;
     ncua_geojson := ncua_geojson w;
     childcare_geojson := childcare_geojson w;
     maryland_food_bank_geojson := maryland_food_bank_geojson w;
     capital_area_food_bank_geojson := capital_area_food_bank_geojson w;
     assets := a |}.

(** What [requests.get(GRANTEE_URL)] followed by [raise_for_status]
    gives: a [RequestException], or a body, which parses as GeoJSON or
    does not. *)
Inductive response :=
| RequestException
| Text (body : option (list grantee_row)).

(** How a computation ends: with a value, by the bare [return] of line
    55, or with an exception that nothing catches (named after the path
    that could not be read). *)
Inductive outcome (A : Type) :=
| Value (a : A)
| Returned
| Raised (path : string).
Global Arguments Value {A} a.
Global Arguments Returned {A}.
Global Arguments Raised {A} path.

Definition M (A : Type) : Type := world → outcome A * world.

#[global] Instance M_ret : MRet M := λ A a w, (Value a, w).

#[global] Instance M_bind : MBind M := λ A B f m w,
  match m w with
  | (Value a, w') => f a w'
  | (Returned, w') => (Returned, w')
  | (Raised path, w') => (Raised path, w')
  end.

Definition return_ {A} : M A := λ w, (Returned, w).

(** [gpd.read_file(path)] and [pd.read_csv(path)]. *)
Definition read_file {A} (path : string) (at_path : world → file A) : M A :=
  λ w, match at_path w with
       | Holds content => (Value content, w)
       | _ => (Raised path, w)
       end.

Definition cache_file : M (file (list grantee_row)) :=
  λ w, (Value (grantees_raw_geojson w), w).

(** [GRANTEE_CACHE_PATH.write_text(response.text)] *)
Definition write_text (body : option (list grantee_row)) : M unit :=
  λ w, (Value (),
        set_cache (match body with Some rows => Holds rows | None => Unreadable end) w).

(** [to_csv] and [to_file] under OUTPUT_DIR: create or overwrite. *)
Definition write (filename : string) (content : asset) : M unit :=
  λ w, (Value (), set_assets (<[filename := content]> (assets w)) w).

Fixpoint for_each {A} (l : list A) (body : A → M unit) : M unit :=
  match l with
  | [] => mret ()
  | x :: l' => body x ;; for_each l' body
  end.

Definition cache_path : string := "input/grantees_raw.geojson".

(** Step 1 (lines 26-55). *)
Definition fetch_grantees (force_refresh_grantees : bool) (resp : response)
  : M (list grantee_row) :=
  cache ← cache_file;
  let '(grantees_gdf, force_refresh_grantees) :=
    if negb force_refresh_grantees && file_exists cache then
      match cache with
      | Holds rows => (Some rows, force_refresh_grantees)
      | _ => (None, true)
      end
    else (None, force_refresh_grantees) in
  match force_refresh_grantees, grantees_gdf with
  | false, Some rows => mret rows
  | _, _ =>
      match resp with
      | Text body =>
          write_text body ;;
          read_file cache_path grantees_raw_geojson
      | RequestException =>
          cache ← cache_file;
          if file_exists cache then read_file cache_path grantees_raw_geojson
          else return_
      end
  end.

Definition run (force_refresh_grantees : bool) (resp : response) : M unit :=
  grantees_gdf ← fetch_grantees force_refresh_grantees resp;
  let grantees_gdf := reproject grantees_gdf in
  let grantees := grantees grantees_gdf in
  points_df ← read_file "input/resources.csv" resources_csv;
  fdic ← read_file "input/fdic.geojson" fdic_geojson;
  ncua ← read_file "input/ncua.geojson" ncua_geojson;
  childcare ← read_file "input/childcare.geojson" childcare_geojson;
  mfb ← read_file "input/maryland_food_bank.geojson" maryland_food_bank_geojson;
  cafb ← read_file "input/capital_area_food_bank.geojson"
                   capital_area_food_bank_geojson;
  let all_points :=
    add_labels <$> concat_points points_df fdic ncua childcare mfb cafb in
  let points_with_tracts := points_with_tracts all_points grantees_gdf grantees in
  write "grantee_points.csv" (Csv (grantee_points points_with_tracts)) ;;
  for_each (Pandas.unique (jtype <$> points_with_tracts)) (λ unique_type,
    write (unique_type +:+ ".geojson")
          (PointsGeoJSON (points_subset unique_type points_with_tracts))) ;;
  write "grantees.geojson" (GranteesGeoJSON grantees).

(** The directory after a sequence of writes. *)
Definition write_all (writes : list (string * asset)) (dir : gmap string asset)
  : gmap string asset :=
  foldl (λ dir w, <[w.1 := w.2]> dir) dir writes.

(** The writes of a run that got the grantee rows [raw] and read the six
    point sources. *)
Definition written (raw : list grantee_row) (points_df : list resource_row)
    (fdic : list fdic_row) (ncua : list ncua_row) (childcare : list childcare_row)
    (mfb cafb : list foodbank_row) : list (string * asset) :=
  let grantees_gdf := reproject raw in
  let grantees := grantees grantees_gdf in
  let all_points :=
    add_labels <$> concat_points points_df fdic ncua childcare mfb cafb in
  outputs (points_with_tracts all_points grantees_gdf grantees) grantees.

End Run.
End CombineData.

(** ** maryland_excel.py *)

(** Python's numeric conversions, as far as [create_geojson_feature] calls
    them. [None] stands for the exception noted. *)
Class PyNum := {
  float : Type;
  float_of_int : Z → option float;        (* OverflowError *)
  float_of_str : string → option float;   (* ValueError *)
  int_of_str : string → option Z;         (* ValueError *)
  trunc : float → option Z;               (* finite floats only *)
  is_nan : float → bool
}.

Module MarylandExcel.
Section Features.
Context {P : PyNum}.

(** A value decoded by [response.json()]. *)
#[warnings="-register-all"]
Inductive json :=
| JNull
| JBool (b : bool)
| JInt (n : Z)
| JFloat (x : float)
| JStr (s : string)
| JList (items : list json)
| JObject (members : list (string * json)).

(** A provider record: a decoded JSON object. *)
Definition record : Type := list (string * json).

(** [record.get(key)]: Python's [None] (here [JNull]) when the key is
    missing. *)
Fixpoint get (r : record) (key : string) : json :=
  match r with
  | [] => JNull
  | (k, v) :: r' => if String.eqb k key then v else get r' key
  end.

Inductive exn := TypeError | ValueError | OverflowError.

Inductive result (A : Type) :=
| Done (a : A)
| Raise (e : exn).
Global Arguments Done {A} a.
Global Arguments Raise {A} e.

#[global] Instance result_ret : MRet result := λ A a, Done a.
#[global] Instance result_bind : MBind result := λ A B f m,
  match m with Done a => f a | Raise e => Raise e end.

(** [try: body except (TypeError, ValueError): handler] *)
Definition try_except {A} (body : result A) (handler : result A) : result A :=
  match body with
  | Raise TypeError | Raise ValueError => handler
  | other => other
  end.

(** [float(v)] *)
Definition py_float (v : json) : result float :=
  match v with
  | JNull | JList _ | JObject _ => Raise TypeError
  | JBool b => from_option Done (Raise OverflowError) (float_of_int (Z.b2z b))
  | JInt n => from_option Done (Raise OverflowError) (float_of_int n)
  | JFloat x => Done x
  | JStr s => from_option Done (Raise ValueError) (float_of_str s)
  end.

(** [int(v)]: truncation for a float, [ValueError] for NaN,
    [OverflowError] for an infinity. *)
Definition py_int (v : json) : result Z :=
  match v with
  | JNull | JList _ | JObject _ => Raise TypeError
  | JBool b => Done (Z.b2z b)
  | JInt n => Done n
  | JFloat x =>
      if is_nan x then Raise ValueError
      else from_option Done (Raise OverflowError) (trunc x)
  | JStr s => from_option Done (Raise ValueError) (int_of_str s)
  end.

(** The GeoJSON feature: a Point geometry with [longitude, latitude] and
    the three properties. *)
Record feature := {
  coordinates : float * float;
  prop_name : json;
  prop_tag_label : json;
  prop_quality : option Z
}.

Definition create_geojson_feature (r : record) : result (option feature) :=
  try_except
    (longitude ← py_float (get r "long");
     latitude ← py_float (get r "lat");
     let overall_rating := get r "rating" in
     quality ← try_except
                 (match overall_rating with
                  | JNull => Done None
                  | _ => n ← py_int overall_rating; Done (Some n)
                  end)
                 (Done None);
     Done (Some {| coordinates := (longitude, latitude);
                   prop_name := get r "name";
                   prop_tag_label := get r "type";
                   prop_quality := quality |}))
    (Done None).

(** The loop of [run] over the records of one response:
    [all_features_for_geojson] grows by the features that are not
    [None]. *)
Fixpoint collect_features (provider_data : list record) : result (list feature) :=
  match provider_data with
  | [] => Done []
  | r :: rest =>
      geojson_feature ← create_geojson_feature r;
      features ← collect_features rest;
      Done (match geojson_feature with
            | Some f => f :: features
            | None => features
            end)
  end.

End Features.
End MarylandExcel.

(** ** Concrete instances for the examples *)

(** Regions that are unions of open axis-parallel rectangles with integer
    corners, points with integer coordinates. *)
Module Rect.
Definition box : Type := (Z * Z) * (Z * Z).   (* lower-left, upper-right corner *)

Definition inside (p : Z * Z) (b : box) : bool :=
  (b.1.1 <? p.1)%Z && (p.1 <? b.2.1)%Z && (b.1.2 <? p.2)%Z && (p.2 <? b.2.2)%Z.

Definition geo : Geo :=
  {| number := Z;
     polygon := list box;
     to_crs := id;
     unary_union := mjoin;
     within := λ p region, existsb (inside p) region |}.

Definition square (side : Z) : list box := [((0, 0), (side, side))]%Z.
End Rect.

(** Python numbers restricted to whole values: a float is its integral
    value, numerals are an optional sign and decimal digits. *)
Module Whole.
Definition digit (c : ascii) : option Z :=
  let n := nat_of_ascii c in
  if Nat.leb 48 n && Nat.leb n 57 then Some (Z.of_nat (n - 48)) else None.

Fixpoint digits (acc : Z) (s : string) : option Z :=
  match s with
  | EmptyString => Some acc
  | String c s' =>
      match digit c with
      | Some d => digits (10 * acc + d) s'
      | None => None
      end
  end.

Definition numeral (s : string) : option Z :=
  match s with
  | EmptyString => None
  | String "-" (String c s') => Z.opp <$> digits 0 (String c s')
  | String "+" (String c s') => digits 0 (String c s')
  | _ => digits 0 s
  end.

Definition num : PyNum :=
  {| float := Z;
     float_of_int := Some;
     float_of_str := numeral;
     int_of_str := numeral;
     trunc := Some;
     is_nan := λ _, false |}.
End Whole.

(** Sample inputs over [Rect.geo]: three nested square regions, the
    innermost two with a track type, and a few points. *)
Module Sample.
Import CombineData.

Definition boundary (k n t : option string) (g : list Rect.box)
  : grantee_row (G := Rect.geo) :=
  @Build_grantee_row Rect.geo k n t g.

(** Three raw rows of one region, organization names A, B, A. *)
Definition one_region : list (grantee_row (G := Rect.geo)) :=
  [boundary (Some "R1") (Some "A") (Some "T") (Rect.square 4);
   boundary (Some "R1") (Some "B") (Some "T") (Rect.square 4);
   boundary (Some "R1") (Some "A") (Some "T") (Rect.square 4)].

(** One region whose first raw row has no track type. *)
Definition late_track : list (grantee_row (G := Rect.geo)) :=
  [boundary (Some "R1") (Some "A") None (Rect.square 4);
   boundary (Some "R1") (Some "B") (Some "T") (Rect.square 4)].

(** R1 inside R2 inside R3; R3 has no track type. *)
Definition nested : list (grantee_row (G := Rect.geo)) :=
  [boundary (Some "R1") (Some "A") (Some "T") (Rect.square 4);
   boundary (Some "R2") (Some "B") (Some "T") (Rect.square 6);
   boundary (Some "R3") (Some "C") None (Rect.square 10)].

Definition resource (n : string) (t tg : string) (x y : Z)
  : resource_row (G := Rect.geo) :=
  @Build_resource_row Rect.geo (Some n) t (Some tg) y x.

(** A market inside R1 (hence R2 and R3), a pharmacy inside R3 only, a
    clinic outside every region. *)
Definition market := resource "Corner Market" "grocery" "supermarket" 1 1.
Definition pharmacy := resource "Main Pharmacy" "pharmacy" "pharmacy" 8 8.
Definition clinic := resource "Far Clinic" "medical" "clinic" 20 20.

(** A bank inside R2 but not R1. *)
Definition bank : fdic_row (G := Rect.geo) :=
  @Build_fdic_row Rect.geo (Some "First Bank") (5, 5)%Z.

Definition daycare : childcare_row (G := Rect.geo) :=
  @Build_childcare_row Rect.geo (Some "Little Stars") (Some "Child Care Center")
    (Some 4%Z) (2, 3)%Z.

Definition points : list (canonical_point (G := Rect.geo)) :=
  concat_points [market; pharmacy; clinic] [bank] [] [daycare] [] [].

Definition all_points : list (labelled_point (G := Rect.geo)) :=
  add_labels <$> points.

Definition joined : list (joined_point (G := Rect.geo)) :=
  points_with_tracts all_points nested (grantees nested).

(** The market and the bank as rows of [all_points], the bank as a row of
    [points_with_tracts] and of the extract, R1 as a row of [grantees]. *)
Definition market_point : labelled_point (G := Rect.geo) :=
  add_labels (@Build_canonical_point Rect.geo (Some "Corner Market") "grocery"
                (Some "supermarket") (Some 1%Z) (Some 1%Z) None None (1, 1)%Z).

Definition bank_point : labelled_point (G := Rect.geo) :=
  add_labels (@Build_canonical_point Rect.geo (Some "First Bank") "financial"
                (Some "bank") None None None None (5, 5)%Z).

Definition bank_joined : joined_point (G := Rect.geo) :=
  {| labelled := bank_point; pt_GEOID20 := Some "R2"; is_grantee := true |}.

Definition bank_row : csv_row (G := Rect.geo) :=
  @Build_csv_row Rect.geo (Some "First Bank") "financial" (Some "bank") 5%Z 5%Z
    None None "Financial" (Some "Bank") (Some "R2") true.


(** All seven sources present, nothing written yet. *)
Definition complete : world (G := Rect.geo) :=
  @Build_world Rect.geo (Holds nested) (Holds [market; pharmacy; clinic])
    (Holds [bank]) (Holds []) (Holds [daycare]) (Holds []) (Holds []) ∅.

(** The same sources next to a file left by an earlier run. *)
Definition complete_stale : world (G := Rect.geo) :=
  set_assets {[ "laundry.geojson" := PointsGeoJSON [] ]} complete.

(** No [resources.csv]. *)
Definition no_resources : world (G := Rect.geo) :=
  @Build_world Rect.geo (Holds nested) Absent
    (Holds [bank]) (Holds []) (Holds [daycare]) (Holds []) (Holds []) ∅.

Import MarylandExcel.


Definition provider_no_latitude : record (P := Whole.num) :=
  [("name", JStr "Nowhere"); ("long", JStr "-76"); ("rating", JInt 4)].


End Sample.

(** ** Python over decoded JSON *)

(** Comparisons of a Python float that the fetchers rely on. *)
Class PyCompare (P : PyNum) := {
  float_nonzero : float → bool;        (* bool(x) *)
  float_as_int : float → option Z      (* the int n with x == n, if any *)
}.

Module Py.
Section Dynamic.
Context {P : PyNum} {C : PyCompare P}.
Import MarylandExcel.

(** Exceptions that leave a fetcher uncaught: those of the conversions,
    a method missing on a value, a missing key. *)
Inductive error :=
| Builtin (e : exn)
| AttributeError
| KeyError.

Inductive outcome (A : Type) :=
| Ok (a : A)
| Crash (e : error).
Global Arguments Ok {A} a.
Global Arguments Crash {A} e.

#[global] Instance outcome_ret : MRet outcome := λ A a, Ok a.
#[global] Instance outcome_bind : MBind outcome := λ A B f m,
  match m with Ok a => f a | Crash e => Crash e end.

(** What [requests.get/post], [raise_for_status] and [response.json()]
    give in a row. *)
Inductive http :=
| RequestException
| JSONDecodeError
| Body (data : json).

Fixpoint lookup (members : list (string * json)) (key : string) : option json :=
  match members with
  | [] => None
  | (k, v) :: rest => if String.eqb k key then Some v else lookup rest key
  end.

(** [v.get(key, default)]: only a dict has the method. *)
Definition dict_get (v : json) (key : string) (default : json) : outcome json :=
  match v with
  | JObject members => Ok (from_option id default (lookup members key))
  | _ => Crash AttributeError
  end.

(** [bool(v)] *)
Definition truthy (v : json) : bool :=
  match v with
  | JNull => false
  | JBool b => b
  | JInt n => negb (n =? 0)%Z
  | JFloat x => float_nonzero x
  | JStr s => negb (String.eqb s "")
  | JList items => match items with [] => false | _ => true end
  | JObject members => match members with [] => false | _ => true end
  end.

(** [for x in v]: the items of a list, the keys of a dict, the characters
    of a string; anything else is not iterable. *)
Definition iter (v : json) : outcome (list json) :=
  match v with
  | JList items => Ok items
  | JObject members => Ok (JStr <$> members.*1)
  | JStr s => Ok ((λ c, JStr (String c "")) <$> list_ascii_of_string s)
  | _ => Crash (Builtin TypeError)
  end.

(** A loop that appends what [body] yields for each item, or skips it. *)
Fixpoint collect {A B} (body : A → outcome (option B)) (items : list A)
  : outcome (list B) :=
  match items with
  | [] => Ok []
  | x :: rest =>
      y ← body x;
      ys ← collect body rest;
      Ok (match y with Some b => b :: ys | None => ys end)
  end.

(** [str.isspace] on one ASCII character. *)
Definition is_space (c : ascii) : bool :=
  let n := nat_of_ascii c in
  (Nat.leb 9 n && Nat.leb n 13) || (Nat.leb 28 n && Nat.leb n 32).

Fixpoint lstrip (s : string) : string :=
  match s with
  | EmptyString => EmptyString
  | String c s' => if is_space c then lstrip s' else s
  end.

Fixpoint rstrip (s : string) : string :=
  match s with
  | EmptyString => EmptyString
  | String c s' =>
      match rstrip s' with
      | EmptyString => if is_space c then EmptyString else String c EmptyString
      | r => String c r
      end
  end.

(** [s.strip()] *)
Definition strip (s : string) : string := rstrip (lstrip s).

End Dynamic.
End Py.

(** ** capital_area_food_bank.py and maryland_food_bank.py *)

Module FoodBank.
Section Fetch.
Context {P : PyNum} {C : PyCompare P}.
Import MarylandExcel Py.

(** A feature as both fetchers write it: [{"type": "Feature", "geometry":
    ..., "properties": {"type": ..., "name": ...}}]. *)
Record feature := {
  geometry : json;
  type : string;
  name : json
}.

(** *** capital_area_food_bank.py *)

Definition NAME_FIELD : string := "name".

(** The body of the loop of [run] (lines 37-54); [None] is [continue]. *)
Definition cafb_feature (f : json) : outcome (option feature) :=
  properties ← dict_get f "properties" (JObject []);
  site_name ← dict_get properties NAME_FIELD JNull;
  if negb (truthy site_name) then Ok None
  else
    geometry ← dict_get f "geometry" JNull;
    match site_name with
    | JStr s => Ok (Some {| geometry := geometry;
                            type := "Capital Area Food Bank Partner Agency";
                            name := JStr (strip s) |})
    | _ => Crash AttributeError            (* site_name.strip() *)
    end.

(** [run]: the features written to [input/capital_area_food_bank.geojson],
    or [None] when the function returns before writing. *)
Definition cafb_run (response : http) : outcome (option (list feature)) :=
  match response with
  | RequestException | JSONDecodeError => Ok None
  | Body data =>
      features ← dict_get data "features" (JList []);
      items ← iter features;
      all_features ← collect cafb_feature items;
      Ok (Some all_features)
  end.

(** *** maryland_food_bank.py *)

Definition ACRONYM_MAP : list (string * string) :=
  [("CSFP", "Commodity Supplemental Food Program");
   ("DSS", "Department of Social Services");
   ("EFO", "Emergency Feeding Organization");
   ("MFB", "Maryland Food Bank");
   ("POTG", "Pantry on the Go");
   ("RDO", "Regional Distributing Organization");
   ("TEFAP", "The Emergency Food Assistance Program")].

(** [sorted(items, key=lambda item: len(item[0]), reverse=True)]: longest
    acronym first, the order of the map among equal lengths. *)
Fixpoint insert_by_length (x : string * string) (l : list (string * string))
  : list (string * string) :=
  match l with
  | [] => [x]
  | y :: l' =>
      if Nat.leb (String.length y.1) (String.length x.1) then x :: l
      else y :: insert_by_length x l'
  end.

Definition longest_first (l : list (string * string)) : list (string * string) :=
  foldr insert_by_length [] l.

(** A character of the regular-expression class [\w]. *)
Definition is_word (c : ascii) : bool :=
  let n := nat_of_ascii c in
  (Nat.leb 48 n && Nat.leb n 57) || (Nat.leb 65 n && Nat.leb n 90)
  || (Nat.leb 97 n && Nat.leb n 122) || Nat.eqb n 95.

(** Does [acronym] stand at the head of [s], followed by a word boundary? *)
Definition word_here (acronym s : string) : bool :=
  String.prefix acronym s &&
  match String.get (String.length acronym) s with
  | Some c => negb (is_word c)
  | None => true
  end.

(** [re.sub(r'\b' + re.escape(acronym) + r'\b', full_name, s)] for an
    acronym of word characters: scan from the left, [skip] characters of a
    match are still to be passed over, [previous_is_word] tells whether a
    word boundary precedes. *)
Fixpoint sub_word (acronym full_name : string) (skip : nat)
    (previous_is_word : bool) (s : string) : string :=
  match s with
  | EmptyString => EmptyString
  | String c s' =>
      match skip with
      | S k => sub_word acronym full_name k true s'
      | O =>
          if negb previous_is_word && word_here acronym s
          then full_name +:+ sub_word acronym full_name
                               (String.length acronym - 1) true s'
          else String c (sub_word acronym full_name 0 (is_word c) s')
      end
  end.

(** [re.search(r'\b' + re.escape(acronym) + r'\b', s) is not None]: does the
    acronym stand as a whole word somewhere in [s]? *)
Fixpoint search_word (acronym : string) (previous_is_word : bool) (s : string)
  : bool :=
  match s with
  | EmptyString => false
  | String c s' =>
      (negb previous_is_word && word_here acronym s)
      || search_word acronym (is_word c) s'
  end.

Definition expand_title (title : string) : string :=
  foldl (λ expanded item, sub_word item.1 item.2 0 false expanded)
        title (longest_first ACRONYM_MAP).

(** An entry of [LAYERS_TO_DOWNLOAD]. *)
Record layer_info := {
  title : string;
  url : string;
  name_field : string;
  where_clause : string
}.

(** The body of the loop of [fetch_and_process_layer] (lines 150-161). *)
Definition mfb_feature (layer : layer_info) (f : json) : outcome (option feature) :=
  properties ← dict_get f "properties" (JObject []);
  name ← dict_get properties (name_field layer) JNull;
  geometry ← dict_get f "geometry" JNull;
  Ok (Some {| geometry := geometry;
              type := expand_title (title layer);
              name := match name with JStr s => JStr (strip s) | _ => name end |}).

Definition fetch_and_process_layer (layer : layer_info) (response : http)
  : outcome (list feature) :=
  match response with
  | RequestException | JSONDecodeError => Ok []
  | Body data =>
      features ← dict_get data "features" (JList []);
      items ← iter features;
      collect (mfb_feature layer) items
  end.

(** [run] over a list of layers, [download] giving the response for each:
    the features written to [input/maryland_food_bank.geojson]. *)
Fixpoint mfb_run (layers : list layer_info) (download : layer_info → http)
  : outcome (list feature) :=
  match layers with
  | [] => Ok []
  | layer :: rest =>
      features ← fetch_and_process_layer layer (download layer);
      all_features ← mfb_run rest download;
      Ok (features ++ all_features)%list
  end.

End Fetch.
End FoodBank.

(** ** maryland_excel.py: the table rows and the run *)

Module ExcelRun.
Section Run.
Context {P : PyNum} {C : PyCompare P}.
Import MarylandExcel Py.

(** An entry of [REFERENCE_DATA["achievements"]]. *)
Record reference := {
  ref_name : string;
  ref_id : Z;
  ref_type : string
}.

Definition REFERENCE_DATA : list reference :=
  [{| ref_name := "Accredited Program"; ref_id := 49; ref_type := "ACHIEVEMENT" |};
   {| ref_name := "American Montessori Society (AMS)"; ref_id := 42;
      ref_type := "ACCREDITATION" |};
   {| ref_name := "Association Montessori International / USA (AMI/USA)";
      ref_id := 48; ref_type := "ACCREDITATION" |};
   {| ref_name := "Association of Independent Maryland Schools (AIMS)";
      ref_id := 41; ref_type := "ACCREDITATION" |};
   {| ref_name := "Association of Waldorf Schools of North America (AWSNA)";
      ref_id := 43; ref_type := "ACCREDITATION" |};
   {| ref_name := "Asthma & Allergy Friendly"; ref_id := 163;
      ref_type := "ACHIEVEMENT" |};
   {| ref_name := "Asthma-Friendly Program"; ref_id := 50;
      ref_type := "ACHIEVEMENT" |};
   {| ref_name := "Cognia Early Learning Accreditation"; ref_id := 40;
      ref_type := "ACCREDITATION" |};
   {| ref_name := "Council on Accreditation / After-School Accreditation (COA/ASA)";
      ref_id := 39; ref_type := "ACCREDITATION" |};
   {| ref_name := "Cultural and Linguistic Competency"; ref_id := 51;
      ref_type := "ACHIEVEMENT" |};
   {| ref_name := "Eco-Friendly Program"; ref_id := 54; ref_type := "ACHIEVEMENT" |};
   {| ref_name := "Family Engagement"; ref_id := 233; ref_type := "ACHIEVEMENT" |};
   {| ref_name := "Health and Wellness"; ref_id := 52; ref_type := "ACHIEVEMENT" |};
   {| ref_name := "Judy Center"; ref_id := 235; ref_type := "ACHIEVEMENT" |};
   {| ref_name := "Maryland Accreditation"; ref_id := 38;
      ref_type := "ACCREDITATION" |};
   {| ref_name := "Middle States Association of Colleges and Schools Commission on Elementary and Secondary Schools (MSA-CESS)";
      ref_id := 44; ref_type := "ACCREDITATION" |};
   {| ref_name := "Military Child Care in Your Neighborhood"; ref_id := 234;
      ref_type := "ACHIEVEMENT" |};
   {| ref_name := "National Accreditation Commission (NAC)"; ref_id := 45;
      ref_type := "ACCREDITATION" |};
   {| ref_name := "National Association for Family Child Care (NAFCC)";
      ref_id := 37; ref_type := "ACCREDITATION" |};
   {| ref_name := "National Association for the Education of Young Children (NAEYC)";
      ref_id := 46; ref_type := "ACCREDITATION" |};
   {| ref_name := "National Early Childhood Program Accreditation (NECPA)";
      ref_id := 47; ref_type := "ACCREDITATION" |};
   {| ref_name := "Quality Business Practices"; ref_id := 53;
      ref_type := "ACHIEVEMENT" |}]%Z.

(** [{item['id']: item for item in reference_data['achievements']}]: a
    later entry replaces an earlier one with the same id. *)
Definition build_lookup_maps (reference_data : list reference) : gmap Z reference :=
  foldl (λ achievements_map item, <[ref_id item := item]> achievements_map)
        ∅ reference_data.

(** [ach_id in achievements_map] and [achievements_map[ach_id]] for a map
    with int keys: a bool or a float counts as the int it equals, a list
    or a dict cannot be hashed. *)
Definition find_achievement (achievements_map : gmap Z reference) (ach_id : json)
  : outcome (option reference) :=
  match ach_id with
  | JInt n => Ok (achievements_map !! n)
  | JBool b => Ok (achievements_map !! Z.b2z b)
  | JFloat x => Ok (float_as_int x ≫= λ n, achievements_map !! n)
  | JNull | JStr _ => Ok None
  | JList _ | JObject _ => Crash (Builtin TypeError)
  end.

(** The loop over [record['achievements']] (lines 42-49): the names
    appended to [accreditations] and to [achievements]. *)
Fixpoint classify (achievements_map : gmap Z reference) (items : list json)
  : outcome (list string * list string) :=
  match items with
  | [] => Ok ([], [])
  | ach_item :: rest =>
      ach_id ← dict_get ach_item "id" JNull;
      found ← find_achievement achievements_map ach_id;
      lists ← classify achievements_map rest;
      Ok (match found with
          | Some ach_info =>
              if String.eqb (ref_type ach_info) "ACCREDITATION"
              then (ref_name ach_info :: lists.1, lists.2)
              else (lists.1, ref_name ach_info :: lists.2)
          | None => lists
          end)
  end.

(** [sorted] on a list of strings. *)
Definition sorted (l : list string) : list string :=
  merge_sort Pandas.string_le l.

(** A line of [maryland_childcare_data.csv]. *)
Record provider_row := {
  row_name : json;
  dba : json;
  row_type : json;
  license : json;
  phone : json;
  website : json;
  overall_rating : json;
  expiration_date : json;
  street_address : json;
  city : json;
  zip_code : json;
  county : json;
  latitude : json;
  longitude : json;
  provider_id : json;
  accreditations : string;
  achievements : string;
  rating_licensing_compliance : json;
  rating_staff_qualifications : json;
  rating_accreditation_rating_scales : json;
  rating_developmentally_appropriate_learning : json;
  rating_administrative_policies : json
}.

Definition process_provider_record_for_csv (r : record)
    (achievements_map : gmap Z reference) : outcome provider_row :=
  lists ← match lookup r "achievements" with
          | Some (JList items) => classify achievements_map items
          | _ => Ok ([], [])
          end;
  let area_ratings :=
    match lookup r "area_ratings" with
    | Some (JObject members) => members
    | _ => []
    end in
  Ok {| row_name := get r "name"; dba := get r "dba";
        row_type := get r "type"; license := get r "license";
        phone := get r "phone"; website := get r "website";
        overall_rating := get r "rating"; expiration_date := get r "exp_date";
        street_address := get r "street_address"; city := get r "city";
        zip_code := get r "zip"; county := get r "county";
        latitude := get r "lat"; longitude := get r "long";
        provider_id := get r "p_id";
        accreditations := PyStr.join ", " (sorted lists.1);
        achievements := PyStr.join ", " (sorted lists.2);
        rating_licensing_compliance := get area_ratings "LIC";
        rating_staff_qualifications := get area_ratings "STF";
        rating_accreditation_rating_scales := get area_ratings "ACR";
        rating_developmentally_appropriate_learning := get area_ratings "DAP";
        rating_administrative_policies := get area_ratings "ADM" |}.

(** The answer of the directory for one county: a failure, or a JSON
    array of provider objects. *)
Inductive county_response :=
| CountyRequestException
| CountyJSONDecodeError
| Providers (provider_data : list record).

Definition lift {A} (r : result A) : outcome A :=
  match r with Done a => Ok a | Raise e => Crash (Builtin e) end.

(** The inner loop of [run] (lines 134-139) over the records of one
    county. *)
Fixpoint process_records (achievements_map : gmap Z reference)
    (provider_data : list record) : outcome (list provider_row * list feature) :=
  match provider_data with
  | [] => Ok ([], [])
  | r :: rest =>
      processed_csv_record ← process_provider_record_for_csv r achievements_map;
      geojson_feature ← lift (create_geojson_feature r);
      others ← process_records achievements_map rest;
      Ok (processed_csv_record :: others.1,
          match geojson_feature with
          | Some f => f :: others.2
          | None => others.2
          end)
  end.

(** The loop over the counties (lines 118-142). *)
Fixpoint scrape (achievements_map : gmap Z reference) (counties : list string)
    (fetch : string → county_response)
  : outcome (list provider_row * list feature) :=
  match counties with
  | [] => Ok ([], [])
  | county :: rest =>
      here ← match fetch county with
             | Providers provider_data =>
                 process_records achievements_map provider_data
             | _ => Ok ([], [])
             end;
      others ← scrape achievements_map rest fetch;
      Ok ((here.1 ++ others.1)%list, (here.2 ++ others.2)%list)
  end.

(** What [run] writes: the lines of the CSV file and the features of the
    GeoJSON file, [None] for a file that is not written. *)
Record written := {
  csv_file : option (list provider_row);
  geojson_file : option (list feature)
}.

Definition run (csv_exists geojson_exists : bool) (counties_to_scrape : list string)
    (fetch : string → county_response) : outcome written :=
  if csv_exists && geojson_exists
  then Ok {| csv_file := None; geojson_file := None |}
  else
    collected ← scrape (build_lookup_maps REFERENCE_DATA) counties_to_scrape fetch;
    Ok {| csv_file := match collected.1 with [] => None | rows => Some rows end;
          geojson_file := match collected.2 with
                          | [] => None
                          | features => Some features
                          end |}.

End Run.
End ExcelRun.

(** ** osm.py: the lines of resources.csv *)

(** [str(v)] as an f-string inserts it, for a value that is not a string. *)
Class PyFormat (P : PyNum) := {
  str_of : MarylandExcel.json → string
}.

Module Osm.
Section Rows.
Context {P : PyNum} {C : PyCompare P} {F : PyFormat P}.
Import MarylandExcel Py.

Definition RESOURCE_TYPES : list (string * list string) :=
  [("grocery",
     ["amenity=marketplace"; "shop=bakery"; "shop=butcher"; "shop=cheese";
      "shop=convenience"; "shop=dairy"; "shop=deli"; "shop=delicatessen";
      "shop=eggs"; "shop=farm"; "shop=fish"; "shop=fishmonger"; "shop=food";
      "shop=frozen_food"; "shop=general"; "shop=greengrocer"; "shop=grocery";
      "shop=health_food"; "shop=pastry"; "shop=pasta"; "shop=seafood";
      "shop=supermarket"; "shop=wholesale"]);
   ("laundry",
     ["shop=dry_cleaning"; "shop=laundry"]);
   ("home_repair",
     ["shop=building_materials"; "shop=doityourself"; "shop=hardware";
      "shop=paint"; "shop=power_tools"; "shop=tools"]);
   ("auto_repair",
     ["shop=auto_parts"; "shop=car_parts"; "shop=car_repair";
      "shop=truck_parts"; "shop=truck_repair"; "shop=tyres"]);
   ("pharmacy",
     ["amenity=pharmacy"; "healthcare=pharmacy"; "shop=pharmacy"]);
   ("barber_beauty",
     ["shop=beauty"; "shop=hairdresser"; "shop=hairdresser_supply"]);
   ("medical",
     ["shop=health"; "shop=medical_supply"; "shop=medical";
      "amenity=hospital"; "amenity=clinic"; "amenity=doctors";
      "amenity=dentist"; "healthcare=alternative"; "healthcare=audiologist";
      "healthcare=birthing_centre"; "healthcare=blood_bank";
      "healthcare=blood_donation"; "healthcare=centre"; "healthcare=clinic";
      "healthcare=community_health_worker"; "healthcare=counselling";
      "healthcare=dentist"; "healthcare=dialysis"; "healthcare=doctor";
      "healthcare=hospice"; "healthcare=hospital"; "healthcare=laboratory";
      "healthcare=midwife"; "healthcare=nurse";
      "healthcare=occupational_therapist"; "healthcare=optometrist";
      "healthcare=physiotherapist"; "healthcare=podiatrist";
      "healthcare=psychotherapist"; "healthcare=rehabilitation";
      "healthcare=sample_collection"; "healthcare=speech_therapist";
      "healthcare=vaccination_centre"; "healthcare=postpartum_care";
      "healthcare=yes"])].

(** [needle in s] for two strings. *)
Fixpoint is_substring (needle s : string) : bool :=
  String.prefix needle s ||
  match s with
  | EmptyString => false
  | String _ s' => is_substring needle s'
  end.

(** [key in v] for a string [key]: a key of a dict, an item of a list, a
    substring of a string. *)
Definition contains (key : string) (v : json) : outcome bool :=
  match v with
  | JObject members => Ok (bool_decide (is_Some (lookup members key)))
  | JList items =>
      Ok (existsb (λ x, match x with JStr s => String.eqb s key | _ => false end)
                  items)
  | JStr s => Ok (is_substring key s)
  | _ => Crash (Builtin TypeError)
  end.

(** [v[key]] for a string [key]. *)
Definition index (v : json) (key : string) : outcome json :=
  match v with
  | JObject members => from_option Ok (Crash KeyError) (lookup members key)
  | _ => Crash (Builtin TypeError)
  end.

(** [a and b] on two tests, [b] evaluated only when [a] holds. *)
Definition and_then (first second : outcome bool) : outcome bool :=
  match first with
  | Ok true => second
  | other => other
  end.

Definition is_empty_str (v : json) : bool :=
  match v with JStr s => String.eqb s "" | _ => false end.

(** The loops over [name_priority] and [tag_priority]: the value of the
    first key whose value is not [''], else the value of the last key. *)
Fixpoint first_non_empty (tags : json) (keys : list string) (current : json)
  : outcome json :=
  match keys with
  | [] => Ok current
  | key :: rest =>
      value ← dict_get tags key (JStr "");
      if negb (is_empty_str value) then Ok value
      else first_non_empty tags rest value
  end.

(** [f'Unnamed {tag}'] *)
Definition unnamed (tag : json) : json :=
  JStr ("Unnamed " +:+ match tag with JStr s => s | _ => str_of tag end).

(** A line of [cbc_rows]. *)
Record row := {
  name : json;
  type : string;
  tag : json;
  lat : json;
  lng : json
}.

(** The coordinates of an element (lines 176-181): its own [lat] and
    [lon], else those of its [center], else none. *)
Definition element_coordinates (el : json) : outcome (option (json * json)) :=
  and_then (contains "lat" el) (contains "lon" el) ≫= λ top_level : bool,
  if top_level then
    lat ← index el "lat"; lng ← index el "lon"; Ok (Some (lat, lng))
  else
    and_then (contains "center" el)
             (center ← index el "center";
              and_then (contains "lat" center) (contains "lon" center))
      ≫= λ centred : bool,
    if centred then
      center ← index el "center";
      lat ← index center "lat"; lng ← index center "lon"; Ok (Some (lat, lng))
    else Ok None.

(** The body of the loop over the elements of one resource type (lines
    175-199); [None] is [continue]. *)
Definition element_row (resource_type : string) (el : json) : outcome (option row) :=
  coordinates ← element_coordinates el;
  match coordinates : option (json * json) with
  | None => Ok None
  | Some (lat, lng) =>
      tags ← dict_get el "tags" (JObject []);
      name ← first_non_empty tags ["name"; "operator"] (JStr "");
      tag ← first_non_empty tags ["shop"; "amenity"; "healthcare"] (JStr "");
      let name :=
        if is_empty_str name && negb (is_empty_str tag) then unnamed tag else name in
      Ok (Some {| name := name; type := resource_type; tag := tag;
                  lat := lat; lng := lng |})
  end.

(** The first loop of [run] (lines 159-166): the elements kept for every
    key of [resource_types]; [overpass queries] is what
    [query_overpass_resources] returns, [None] after a failed request. *)
Fixpoint resources_by_type (resource_types : list (string * list string))
    (overpass : list string → option json) : outcome (list (string * json)) :=
  match resource_types with
  | [] => Ok []
  | (resource_type, queries) :: rest =>
      elements ← match overpass queries with
                 | Some result =>
                     if truthy result then index result "elements"
                     else Ok (JList [])
                 | None => Ok (JList [])
                 end;
      others ← resources_by_type rest overpass;
      Ok ((resource_type, elements) :: others)
  end.

(** The second loop (lines 172-199). *)
Fixpoint rows_of (by_type : list (string * json)) : outcome (list row) :=
  match by_type with
  | [] => Ok []
  | (resource_type, elements) :: rest =>
      items ← iter elements;
      here ← collect (element_row resource_type) items;
      others ← rows_of rest;
      Ok (here ++ others)%list
  end.

(** The lines [run] hands to the CSV writer. *)
Definition cbc_rows (overpass : list string → option json) : outcome (list row) :=
  by_type ← resources_by_type RESOURCE_TYPES overpass;
  rows_of by_type.

End Rows.
End Osm.

(** Comparisons for [Whole.num]. *)
Module WholeCompare.
Definition nonzero (x : Z) : bool := negb (x =? 0)%Z.

Definition compare : PyCompare Whole.num :=
  @Build_PyCompare Whole.num nonzero Some.

(** [str] of a scalar; the samples have no list or object where a value is
    formatted. *)
Definition str_of (v : MarylandExcel.json (P := Whole.num)) : string :=
  match v with
  | MarylandExcel.JNull => "None"
  | MarylandExcel.JBool b => if b then "True" else "False"
  | MarylandExcel.JInt n => pretty n
  | MarylandExcel.JFloat x => pretty (x : Z) +:+ ".0"
  | MarylandExcel.JStr s => s
  | MarylandExcel.JList _ => "[...]"
  | MarylandExcel.JObject _ => "{...}"
  end.

Definition format : PyFormat Whole.num := @Build_PyFormat Whole.num str_of.
End WholeCompare.

(** Whole-valued floats with an infinity ([None]): [float] of an int
    beyond the range of a double and [int] of the infinity overflow. *)
Module Extended.
Definition of_int (n : Z) : option (option Z) :=
  if (Z.abs n <? 2 ^ 1024)%Z then Some (Some n) else None.

Definition of_str (s : string) : option (option Z) :=
  if String.eqb s "inf" then Some None else Some <$> Whole.numeral s.


Definition num : PyNum :=
  {| float := option Z;
     float_of_int := of_int;
     float_of_str := of_str;
     int_of_str := Whole.numeral;
     trunc := id;
     is_nan := λ _, false |}.
End Extended.

(** Sample responses for the fetchers, over [Whole.num]. *)
Module Cases.
Import MarylandExcel.

Definition json : Type := MarylandExcel.json (P := Whole.num).

Definition point_geometry (x y : Z) : json :=
  JObject [("type", JStr "Point"); ("coordinates", JList [JInt x; JInt y])].

Definition site (name : json) (x y : Z) : json :=
  JObject [("type", JStr "Feature");
           ("geometry", point_geometry x y);
           ("properties", JObject [("name", name)])].

(** A Capital Area response: a named site, a site with an empty name, a
    site whose name is white space. *)
Definition cafb_data : json :=
  JObject [("type", JStr "FeatureCollection");
           ("features", JList [site (JStr " Food Pantry ") 1 1;
                               site (JStr "") 2 2;
                               site (JStr "  ") 3 3])].

(** The same with a site whose name is a number. *)
Definition cafb_numeric_name : json :=
  JObject [("features", JList [site (JStr "Food Pantry") 1 1;
                               site (JInt 7) 2 2])].

Definition tefap : FoodBank.layer_info :=
  {| FoodBank.title := "TEFAP: EFO";
     FoodBank.url := "https://services6.arcgis.com/z5rKj2pMbYQAvHJ4/arcgis/rest/services/PartnerAgencies070123to063024/FeatureServer/0";
     FoodBank.name_field := "Name";
     FoodBank.where_clause := "Program_Type = 'TEFAP: EFO'" |}.

Definition mfb_site (name : json) : json :=
  JObject [("geometry", point_geometry 4 4);
           ("properties", JObject [("Name", name)])].

Definition mfb_data : json :=
  JObject [("features", JList [mfb_site (JStr " Soup Kitchen"); mfb_site JNull])].

(** A provider with two known achievements and an unknown one. *)
Definition awarded : record (P := Whole.num) :=
  [("name", JStr "Little Stars"); ("long", JStr "-76"); ("lat", JInt 39);
   ("rating", JInt 4);
   ("achievements", JList [JObject [("id", JInt 49)];
                           JObject [("id", JInt 42)];
                           JObject [("id", JInt 7)]])].

(** The line and the feature written for [awarded]. *)
Definition awarded_row : ExcelRun.provider_row (P := Whole.num) :=
  {| ExcelRun.row_name := JStr "Little Stars"; ExcelRun.dba := JNull;
     ExcelRun.row_type := JNull; ExcelRun.license := JNull;
     ExcelRun.phone := JNull; ExcelRun.website := JNull;
     ExcelRun.overall_rating := JInt 4; ExcelRun.expiration_date := JNull;
     ExcelRun.street_address := JNull; ExcelRun.city := JNull;
     ExcelRun.zip_code := JNull; ExcelRun.county := JNull;
     ExcelRun.latitude := JInt 39; ExcelRun.longitude := JStr "-76";
     ExcelRun.provider_id := JNull;
     ExcelRun.accreditations := "American Montessori Society (AMS)";
     ExcelRun.achievements := "Accredited Program";
     ExcelRun.rating_licensing_compliance := JNull;
     ExcelRun.rating_staff_qualifications := JNull;
     ExcelRun.rating_accreditation_rating_scales := JNull;
     ExcelRun.rating_developmentally_appropriate_learning := JNull;
     ExcelRun.rating_administrative_policies := JNull |}.

Definition awarded_feature : feature (P := Whole.num) :=
  @Build_feature Whole.num ((-76)%Z, 39%Z) (JStr "Little Stars") JNull (Some 4%Z).

(** The line written for [Sample.provider_no_latitude]. *)
Definition nowhere_row : ExcelRun.provider_row (P := Whole.num) :=
  {| ExcelRun.row_name := JStr "Nowhere"; ExcelRun.dba := JNull;
     ExcelRun.row_type := JNull; ExcelRun.license := JNull;
     ExcelRun.phone := JNull; ExcelRun.website := JNull;
     ExcelRun.overall_rating := JInt 4; ExcelRun.expiration_date := JNull;
     ExcelRun.street_address := JNull; ExcelRun.city := JNull;
     ExcelRun.zip_code := JNull; ExcelRun.county := JNull;
     ExcelRun.latitude := JNull; ExcelRun.longitude := JStr "-76";
     ExcelRun.provider_id := JNull;
     ExcelRun.accreditations := "";
     ExcelRun.achievements := "";
     ExcelRun.rating_licensing_compliance := JNull;
     ExcelRun.rating_staff_qualifications := JNull;
     ExcelRun.rating_accreditation_rating_scales := JNull;
     ExcelRun.rating_developmentally_appropriate_learning := JNull;
     ExcelRun.rating_administrative_policies := JNull |}.


(** One county that fails, one that answers with two providers. *)
Definition fetch (county : string) : ExcelRun.county_response (P := Whole.num) :=
  if String.eqb county "Howard"
  then ExcelRun.Providers [awarded; Sample.provider_no_latitude]
  else ExcelRun.CountyRequestException.

(** An Overpass answer with a node, a way with a centre and a relation
    without coordinates. *)
Definition node : json :=
  JObject [("type", JStr "node"); ("lat", JInt 39); ("lon", JInt (-76));
           ("tags", JObject [("shop", JStr "bakery")])].

Definition way : json :=
  JObject [("type", JStr "way");
           ("center", JObject [("lat", JInt 38); ("lon", JInt (-77))]);
           ("tags", JObject [("name", JStr "Sunrise"); ("amenity", JStr "marketplace")])].

Definition relation : json :=
  JObject [("type", JStr "relation"); ("tags", JObject [("shop", JStr "deli")])].

Definition overpass (queries : list string) : option json :=
  if bool_decide ("shop=bakery" ∈ queries)
  then Some (JObject [("elements", JList [node; way; relation])])
  else None.

Definition node_row : Osm.row (P := Whole.num) :=
  {| Osm.name := JStr "Unnamed bakery"; Osm.type := "grocery";
     Osm.tag := JStr "bakery"; Osm.lat := JInt 39; Osm.lng := JInt (-76) |}.

End Cases.

(** ** Auxiliary views *)

Section Views.
Context {G : Geo}.
Import CombineData.

(** The writes of the loop over the categories, the middle part of
    [outputs]. *)
Definition category_writes (joined : list joined_point) : list (string * asset) :=
  (λ unique_type,
     (unique_type +:+ ".geojson",
      PointsGeoJSON (points_subset unique_type joined)))
    <$> Pandas.unique (jtype <$> joined).
End Views.

Example title_credit_union :
  PyStr.title (PyStr.replace "_" " " "credit_union") = "Credit Union".
Proof. reflexivity. Qed.

Example unique_aba : Pandas.unique ["A"; "B"; "A"] = ["A"; "B"].
Proof. reflexivity. Qed.

Example join_ab : PyStr.join "; " ["A"; "B"] = "A; B".
Proof. reflexivity. Qed.

Example keys_sorted :
  Pandas.group_keys [Some "R2"; None; Some "R1"; Some "R2"] = ["R1"; "R2"].
Proof. vm_compute. reflexivity. Qed.

(** * Properties *)

(** ** Lists and frames *)

Section FrameLemmas.
Context {A B : Type}.

Lemma filter_bind (P : B → Prop) `{∀ y, Decision (P y)} (f : A → list B) (l : list A) :
  filter P (l ≫= f) = l ≫= (λ x, filter P (f x)).
Proof.
  induction l as [|x l IH]; [done|].
  rewrite !bind_cons, filter_app. by f_equal.
Qed.

Lemma bind_guard (Q : A → Prop) `{∀ x, Decision (Q x)} (f : A → list B) (l : list A) :
  l ≫= (λ x, if decide (Q x) then f x else []) = filter Q l ≫= f.
Proof.
  induction l as [|x l IH]; [done|].
  rewrite bind_cons, filter_cons, IH.
  case_decide; by rewrite ?bind_cons.
Qed.

Lemma filter_fmap (P : B → Prop) `{∀ y, Decision (P y)} (f : A → B) (l : list A) :
  filter P (f <$> l) = f <$> filter (λ x, P (f x)) l.
Proof.
  induction l as [|x l IH]; [done|].
  rewrite fmap_cons, !filter_cons, IH. by case_decide.
Qed.

Lemma filter_all (P : A → Prop) `{∀ x, Decision (P x)} (l : list A) :
  Forall P l → filter P l = l.
Proof.
  induction 1 as [|x l Hx _ IH]; [done|].
  by rewrite filter_cons_True, IH.
Qed.

Lemma filter_none (P : A → Prop) `{∀ x, Decision (P x)} (l : list A) :
  Forall (λ x, ¬ P x) l → filter P l = [].
Proof.
  induction 1 as [|x l Hx _ IH]; [done|].
  by rewrite filter_cons_False.
Qed.

Lemma filter_ext_in (P Q : A → Prop) `{∀ x, Decision (P x)} `{∀ x, Decision (Q x)}
    (l : list A) :
  (∀ x, x ∈ l → P x ↔ Q x) → filter P l = filter Q l.
Proof.
  induction l as [|x l IH]; intros HPQ; [done|].
  rewrite !filter_cons, IH by (intros; apply HPQ; by right).
  destruct (HPQ x) as [? ?]; [by left|].
  repeat case_decide; tauto.
Qed.

Lemma fmap_bind {C} (g : B → C) (f : A → list B) (l : list A) :
  g <$> (l ≫= f) = l ≫= (λ x, g <$> f x).
Proof.
  induction l as [|x l IH]; [done|].
  rewrite !bind_cons, fmap_app. by f_equal.
Qed.

Lemma NoDup_filter_eq `{EqDecision A} (l : list A) x :
  NoDup l → x ∈ l → filter (λ y, x = y) l = [x].
Proof.
  induction 1 as [|y l Hy Hl IH]; intros Hx; [by apply elem_of_nil in Hx|].
  rewrite filter_cons. case_decide as Hxy.
  - subst y. f_equal. apply filter_none, Forall_forall.
    intros z Hz ->. contradiction.
  - apply elem_of_cons in Hx as [?|?]; [done|by apply IH].
Qed.
End FrameLemmas.

Section DropDuplicates.
Context {A K : Type} `{EqDecision K} (key : A → K).

Lemma drop_duplicates_from_filter seen (df : list A) k :
  filter (λ r, key r = k) (Pandas.drop_duplicates_from key seen df) =
  if decide (k ∈ seen) then []
  else option_list (head (filter (λ r, key r = k) df)).
Proof.
  revert seen. induction df as [|r df IH]; intros seen; simpl.
  { by case_decide. }
  destruct (decide (key r ∈ seen)) as [Hin|Hout].
  - rewrite IH, filter_cons. repeat case_decide; subst; done.
  - rewrite !filter_cons. destruct (decide (key r = k)) as [<-|Hne].
    + rewrite IH, decide_True by (by left). by rewrite decide_False.
    + rewrite IH. destruct (decide (k ∈ seen)) as [Hk|Hk].
      * rewrite decide_True; [done|by right].
      * rewrite decide_False; [done|].
        by intros [?|?]%elem_of_cons.
Qed.

Lemma drop_duplicates_filter (df : list A) k :
  filter (λ r, key r = k) (Pandas.drop_duplicates key df) =
  option_list (head (filter (λ r, key r = k) df)).
Proof.
  unfold Pandas.drop_duplicates. rewrite drop_duplicates_from_filter.
  rewrite decide_False; [done|]. apply not_elem_of_nil.
Qed.

Lemma elem_of_drop_duplicates_from seen (df : list A) r :
  r ∈ Pandas.drop_duplicates_from key seen df → r ∈ df ∧ key r ∉ seen.
Proof.
  revert seen. induction df as [|r' df IH]; intros seen; simpl.
  { by intros ?%elem_of_nil. }
  case_decide.
  - intros [? ?]%IH. split; [by right|done].
  - intros [->|[? Hr]%IH]%elem_of_cons; [split; [by left|done]|].
    split; [by right|]. intros ?. apply Hr. by right.
Qed.

Lemma key_in_drop_duplicates_from seen (df : list A) k :
  k ∈ key <$> df → k ∉ seen →
  k ∈ key <$> Pandas.drop_duplicates_from key seen df.
Proof.
  revert seen. induction df as [|r df IH]; intros seen; simpl.
  { by intros ?%elem_of_nil. }
  intros Hk Hseen. apply elem_of_cons in Hk as [->|Hk].
  - rewrite decide_False by done. by left.
  - case_decide; [by apply IH|].
    destruct (decide (k = key r)) as [->|?]; [by left|].
    right. apply IH; [done|]. by intros [?|?]%elem_of_cons.
Qed.

Lemma NoDup_drop_duplicates_from seen (df : list A) :
  NoDup (key <$> Pandas.drop_duplicates_from key seen df).
Proof.
  revert seen. induction df as [|r df IH]; intros seen; simpl.
  { constructor. }
  case_decide; [apply IH|].
  rewrite fmap_cons. constructor; [|apply IH].
  intros (r' & Heq & [_ Hr']%elem_of_drop_duplicates_from)%list_elem_of_fmap.
  apply Hr'. rewrite <- Heq. by left.
Qed.
End DropDuplicates.

Lemma elem_of_unique {K} `{EqDecision K} (s : list K) k :
  k ∈ Pandas.unique s ↔ k ∈ s.
Proof.
  unfold Pandas.unique, Pandas.drop_duplicates. split.
  - by intros [? _]%elem_of_drop_duplicates_from.
  - intros Hk.
    pose proof (key_in_drop_duplicates_from id [] s k) as Hin.
    rewrite !list_fmap_id in Hin. apply Hin; [done|apply not_elem_of_nil].
Qed.

Lemma NoDup_unique {K} `{EqDecision K} (s : list K) : NoDup (Pandas.unique s).
Proof.
  pose proof (NoDup_drop_duplicates_from id [] s) as Hnd.
  by rewrite list_fmap_id in Hnd.
Qed.

Lemma elem_of_group_keys keys k :
  k ∈ Pandas.group_keys keys ↔ Some k ∈ keys.
Proof.
  unfold Pandas.group_keys, Pandas.dropna.
  rewrite merge_sort_Permutation, elem_of_unique, list_elem_of_omap.
  split; [by intros ([?|] & ? & [= ->])|]. intros ?. by exists (Some k).
Qed.

Lemma NoDup_group_keys keys : NoDup (Pandas.group_keys keys).
Proof.
  unfold Pandas.group_keys. rewrite merge_sort_Permutation. apply NoDup_unique.
Qed.

(** ** The boundary loader *)

Section BoundaryLoader.
Context {G : Geo}.
Import CombineData.

Lemma head_group_elem_of k (grantees_gdf : list grantee_row) r :
  head (group k grantees_gdf) = Some r →
  r ∈ grantees_gdf ∧ raw_GEOID20 r = Some k.
Proof.
  intros Hr%head_Some_elem_of. unfold group in Hr.
  apply list_elem_of_filter in Hr. tauto.
Qed.

Lemma grantee_data_lookup (grantees_gdf : list grantee_row) k :
  Some k ∈ raw_GEOID20 <$> grantees_gdf →
  filter (λ r, Some k = Some r.1.1) (grantee_data grantees_gdf) =
  [(k, join_names (raw_ORGANIZATION_NAME <$> group k grantees_gdf),
       Pandas.first (raw_GOC_TRACK_TYPE <$> group k grantees_gdf))].
Proof.
  intros Hk. unfold grantee_data. rewrite filter_fmap. simpl.
  rewrite (filter_ext_in _ (λ k', k = k')) by (intros; split; congruence).
  rewrite NoDup_filter_eq; [done|apply NoDup_group_keys|].
  by apply elem_of_group_keys.
Qed.

(** The rows of [grantees_processed] that carry a given key. *)
Lemma grantees_processed_region (grantees_gdf : list grantee_row) k :
  filter (λ g, GEOID20 g = k) (grantees_processed grantees_gdf) =
  match head (group k grantees_gdf) with
  | Some first_row =>
      [{| GEOID20 := k;
          geometry := raw_geometry first_row;
          ORGANIZATION_NAME :=
            join_names (raw_ORGANIZATION_NAME <$> group k grantees_gdf);
          GOC_TRACK_TYPE :=
            Pandas.first (raw_GOC_TRACK_TYPE <$> group k grantees_gdf) |}]
  | None => []
  end.
Proof.
  unfold grantees_processed, merge. rewrite filter_bind.
  rewrite (list_bind_ext _
    (λ l, if decide (l.1 = Some k)
          then (λ r, {| GEOID20 := r.1.1; geometry := l.2;
                        ORGANIZATION_NAME := r.1.2; GOC_TRACK_TYPE := r.2 |})
                 <$> filter (λ r, l.1 = Some r.1.1) (grantee_data grantees_gdf)
          else []) _ (unique_geometry grantees_gdf)); [|intros l|done].
  2:{ rewrite filter_fmap. simpl. case_decide as Hl.
      - f_equal. rewrite list_filter_filter. apply filter_ext_in.
        intros r _. rewrite Hl. split; [tauto|]. intros [= ->]. done.
      - rewrite list_filter_filter, filter_none; [done|].
        apply Forall_forall. intros r _ [<- Hr]. by rewrite Hr in Hl. }
  rewrite bind_guard. unfold unique_geometry.
  rewrite filter_fmap. simpl.
  rewrite (drop_duplicates_filter raw_GEOID20).
  fold (group k grantees_gdf).
  destruct (head (group k grantees_gdf)) as [r0|] eqn:Hhead; [|done].
  destruct (head_group_elem_of _ _ _ Hhead) as [Hin Hkey].
  simpl. rewrite Hkey.
  rewrite (grantee_data_lookup grantees_gdf k).
  - done.
  - apply list_elem_of_fmap. by exists r0.
Qed.

Lemma grantees_processed_key (grantees_gdf : list grantee_row) g :
  g ∈ grantees_processed grantees_gdf →
  Some (GEOID20 g) ∈ raw_GEOID20 <$> grantees_gdf.
Proof.
  unfold grantees_processed, merge.
  intros (l & Hg & _)%list_elem_of_bind.
  apply list_elem_of_fmap in Hg as (r & -> & Hr).
  apply list_elem_of_filter in Hr as [_ Hr]. simpl.
  unfold grantee_data in Hr.
  apply list_elem_of_fmap in Hr as (k & -> & Hk). simpl.
  by apply elem_of_group_keys.
Qed.

(** C3, as amended. Every row of the deduplicated boundary table carries a
    region id of the raw input, and for every region id [k] of the raw
    input the table has exactly one row with that id: its geometry is the
    geometry of the first raw row with id [k], its organization names are
    the distinct non-null names of the raw rows with id [k], in order of
    first appearance and joined with "; ", and its track type is the first
    non-null track type among those rows (null when all are null). *)
Theorem boundary_loader_one_row_per_region (grantees_gdf : list grantee_row) :
  (∀ g, g ∈ grantees_processed grantees_gdf →
        Some (GEOID20 g) ∈ raw_GEOID20 <$> grantees_gdf) ∧
  (∀ k first_row,
      head (group k grantees_gdf) = Some first_row →
      let names := Pandas.unique (Pandas.dropna
                     (raw_ORGANIZATION_NAME <$> group k grantees_gdf)) in
      (NoDup names ∧
       ∀ n, n ∈ names ↔ Some n ∈ raw_ORGANIZATION_NAME <$> group k grantees_gdf) ∧
      filter (λ g, GEOID20 g = k) (grantees_processed grantees_gdf) =
      [{| GEOID20 := k;
          geometry := raw_geometry first_row;
          ORGANIZATION_NAME := PyStr.join "; " names;
          GOC_TRACK_TYPE :=
            head (Pandas.dropna (raw_GOC_TRACK_TYPE <$> group k grantees_gdf)) |}]).
Proof.
  split; [apply grantees_processed_key|].
  intros k first_row Hfirst names. split; [split|].
  - apply NoDup_unique.
  - intros n. unfold names, Pandas.dropna.
    rewrite elem_of_unique, list_elem_of_omap.
    split; [by intros ([?|] & ? & [= ->])|]. intros ?. by exists (Some n).
  - by rewrite grantees_processed_region, Hfirst.
Qed.

End BoundaryLoader.

(** ** The spatial join *)

Section SpatialJoin.
Context {G : Geo}.
Import CombineData.

Lemma sjoin_row_targets (grantees : list grantee) p :
  sjoin_row (join_targets grantees) p =
  match containing p grantees with
  | [] => [(p, None)]
  | regions => (λ g, (p, Some (GEOID20 g))) <$> regions
  end.
Proof.
  unfold sjoin_row, join_targets, containing.
  rewrite filter_fmap. simpl.
  destruct (filter _ grantees) as [|g gs]; [done|].
  simpl. by rewrite <- list_fmap_compose.
Qed.

Lemma elem_of_sjoin_row (grantees : list grantee) p r :
  r ∈ sjoin_row (join_targets grantees) p ↔
  r.1 = p ∧
  ((r.2 = None ∧ containing p grantees = []) ∨
   (∃ g, g ∈ containing p grantees ∧ r.2 = Some (GEOID20 g))).
Proof.
  rewrite sjoin_row_targets.
  destruct (containing p grantees) as [|g gs] eqn:Hc.
  - rewrite list_elem_of_singleton. destruct r as [p' k]; simpl. split.
    + intros [= -> ->]. auto.
    + intros [-> [[-> _]|(g & Hg & _)]]; [done|by apply elem_of_nil in Hg].
  - rewrite list_elem_of_fmap. destruct r as [p' k]; simpl. split.
    + intros (g' & [= -> ->] & Hg'). eauto.
    + intros [-> [[_ ?]|(g' & Hg' & ->)]]; [done|eauto].
Qed.

Lemma elem_of_points_with_tracts (all_points : list labelled_point)
    (grantees_gdf : list grantee_row) (grantees : list grantee) j :
  j ∈ points_with_tracts all_points grantees_gdf grantees ↔
  labelled j ∈ all_points ∧
  within (geom (labelled j)) (md_tracts_union grantees_gdf) = true ∧
  is_grantee j = isin (pt_GEOID20 j) (grantee_geoids grantees) ∧
  ((pt_GEOID20 j = None ∧ containing (labelled j) grantees = []) ∨
   (∃ g, g ∈ containing (labelled j) grantees ∧ pt_GEOID20 j = Some (GEOID20 g))).
Proof.
  unfold points_with_tracts, sjoin, points_in_md.
  rewrite list_elem_of_fmap. split.
  - intros (r & -> & Hr). simpl.
    apply list_elem_of_bind in Hr as (p & Hr & Hp).
    apply list_elem_of_filter in Hp as [Hin Hp].
    apply elem_of_sjoin_row in Hr as [-> Hr]. auto.
  - intros (Hp & Hin & Hg & Hk). exists (labelled j, pt_GEOID20 j). split.
    + destruct j; simpl in *. by rewrite Hg.
    + apply list_elem_of_bind. exists (labelled j). split.
      * by apply elem_of_sjoin_row.
      * by apply list_elem_of_filter.
Qed.


Lemma isin_true cell (grantees : list grantee) :
  isin cell (grantee_geoids grantees) = true ↔
  ∃ k, cell = Some k ∧ k ∈ GEOID20 <$> grantees.
Proof.
  unfold isin, grantee_geoids. destruct cell as [k|].
  - rewrite bool_decide_eq_true, elem_of_list_to_set. split; [eauto|].
    by intros (? & [= <-] & ?).
  - split; [done|]. by intros (? & ? & _).
Qed.

(** C1, as amended. The joined set is the concatenation, over the points
    within the union, of the joined rows of each point. A point has one
    joined row per eligible region whose polygon it is within, each with
    that region's id, and a single row with a null region id when there is
    no such region; it has exactly one joined row iff at most one eligible
    region contains it. *)
Theorem sjoin_one_row_per_containing_region (all_points : list labelled_point)
    (grantees_gdf : list grantee_row) (grantees : list grantee) :
  let rows_of p :=
    (λ r, {| labelled := r.1; pt_GEOID20 := r.2;
             is_grantee := isin r.2 (grantee_geoids grantees) |})
      <$> sjoin_row (join_targets grantees) p in
  points_with_tracts all_points grantees_gdf grantees =
    points_in_md all_points (md_tracts_union grantees_gdf) ≫= rows_of ∧
  ∀ p,
    labelled <$> rows_of p = replicate (List.length (rows_of p)) p ∧
    pt_GEOID20 <$> rows_of p ≡ₚ
      match containing p grantees with
      | [] => [None]
      | regions => (λ g, Some (GEOID20 g)) <$> regions
      end ∧
    List.length (rows_of p) = Nat.max 1 (List.length (containing p grantees)) ∧
    (List.length (rows_of p) = 1 ↔ (List.length (containing p grantees) ≤ 1)%nat).
Proof.
  intros rows_of. split.
  { unfold points_with_tracts, sjoin. by rewrite fmap_bind. }
  intros p. unfold rows_of. rewrite sjoin_row_targets.
  destruct (containing p grantees) as [|g gs].
  { simpl. split; [done|split; [done|lia]]. }
  rewrite <- !list_fmap_compose, !length_fmap.
  split; [|split; [done|simpl; lia]].
  generalize (g :: gs). intros l. induction l as [|x l IH]; [done|].
  simpl. by f_equal.
Qed.

(** C2. A point of the canonical set that is within the union of all raw
    boundary polygons has a row in the joined set; every row of the joined
    set, hence every row of the extract and of every per-category file,
    is a point of the canonical set that is within the union; a point that
    is not within the union has no row in any output file. *)
Theorem only_points_within_union (all_points : list labelled_point)
    (grantees_gdf : list grantee_row) (grantees : list grantee) :
  let mask := md_tracts_union grantees_gdf in
  let joined := points_with_tracts all_points grantees_gdf grantees in
  (∀ p, p ∈ all_points → within (geom p) mask = true →
        ∃ j, j ∈ joined ∧ labelled j = p) ∧
  (∀ j, j ∈ joined → labelled j ∈ all_points ∧ within (geom (labelled j)) mask = true) ∧
  (∀ file content, (file, content) ∈ outputs joined grantees →
     match content with
     | Csv rows =>
         ∀ row, row ∈ rows →
           within (csv_lng row, csv_lat row) mask = true ∧
           ∃ j, j ∈ joined ∧ row = to_csv_row j
     | PointsGeoJSON features => ∀ j, j ∈ features → j ∈ joined
     | GranteesGeoJSON _ => True
     end) ∧
  (∀ p, within (geom p) mask = false →
     ∀ file content, (file, content) ∈ outputs joined grantees →
       match content with
       | Csv rows => ∀ row, row ∈ rows → (csv_lng row, csv_lat row) ≠ geom p
       | PointsGeoJSON features => ∀ j, j ∈ features → labelled j ≠ p
       | GranteesGeoJSON _ => True
       end).
Proof.
  intros mask joined.
  assert (Hin : ∀ j, j ∈ joined →
            labelled j ∈ all_points ∧ within (geom (labelled j)) mask = true).
  { intros j Hj. apply elem_of_points_with_tracts in Hj. tauto. }
  assert (Hout : ∀ file content, (file, content) ∈ outputs joined grantees →
     match content with
     | Csv rows =>
         ∀ row, row ∈ rows →
           within (csv_lng row, csv_lat row) mask = true ∧
           ∃ j, j ∈ joined ∧ row = to_csv_row j
     | PointsGeoJSON features => ∀ j, j ∈ features → j ∈ joined
     | GranteesGeoJSON _ => True
     end).
  { intros file content. unfold outputs.
    rewrite elem_of_cons, elem_of_app, list_elem_of_fmap, list_elem_of_singleton.
    intros [[= _ ->]|[(t & [= _ ->] & _)|[= _ ->]]]; [| |done].
    - intros row (j & -> & Hj)%list_elem_of_fmap.
      apply list_elem_of_filter in Hj as [_ Hj]. split; [|eauto].
      destruct (Hin j Hj) as [_ Hw]. unfold to_csv_row, geom in *. simpl.
      by destruct (pt_geometry (base (labelled j))).
    - intros j Hj. unfold points_subset in Hj.
      by apply list_elem_of_filter in Hj as [_ Hj]. }
  split; [|split; [exact Hin|split; [exact Hout|]]].
  - intros p Hp Hw.
    destruct (containing p grantees) as [|g gs] eqn:Hc.
    + exists {| labelled := p; pt_GEOID20 := None;
                is_grantee := isin None (grantee_geoids grantees) |}.
      split; [|done]. apply elem_of_points_with_tracts. simpl.
      split; [done|split; [done|split; [done|by left]]].
    + exists {| labelled := p; pt_GEOID20 := Some (GEOID20 g);
                is_grantee := isin (Some (GEOID20 g)) (grantee_geoids grantees) |}.
      split; [|done]. apply elem_of_points_with_tracts. simpl.
      split; [done|split; [done|split; [done|]]].
      right. exists g. rewrite Hc. split; [by left|done].
  - intros p Hp file content Hfile. specialize (Hout file content Hfile).
    destruct content as [rows|features|]; [| |done].
    + intros row Hrow Heq. destruct (Hout row Hrow) as [Hw _]. congruence.
    + intros j Hj <-. destruct (Hin j (Hout j Hj)) as [_ Hw]. congruence.
Qed.

(** C4. In the joined set the grantee flag of a row is true iff its region
    id is non-null and is the id of an eligible region; the extract holds
    exactly the rows whose flag is true, so every row of the extract has a
    true flag and a non-null region id of the eligible set. *)
Theorem extract_rows_are_eligible (all_points : list labelled_point)
    (grantees_gdf : list grantee_row) (grantees : list grantee) :
  let joined := points_with_tracts all_points grantees_gdf grantees in
  (∀ j, j ∈ joined →
     (is_grantee j = true ↔
      ∃ k, pt_GEOID20 j = Some k ∧ k ∈ GEOID20 <$> grantees)) ∧
  (∀ row, row ∈ grantee_points joined ↔
          ∃ j, j ∈ joined ∧ is_grantee j = true ∧ row = to_csv_row j) ∧
  (∀ row, row ∈ grantee_points joined →
     csv_grantee row = true ∧
     ∃ k, csv_GEOID20 row = Some k ∧ k ∈ GEOID20 <$> grantees).
Proof.
  intros joined.
  assert (Hflag : ∀ j, j ∈ joined →
     (is_grantee j = true ↔
      ∃ k, pt_GEOID20 j = Some k ∧ k ∈ GEOID20 <$> grantees)).
  { intros j Hj. apply elem_of_points_with_tracts in Hj as (_ & _ & -> & _).
    apply isin_true. }
  assert (Hrows : ∀ row, row ∈ grantee_points joined ↔
          ∃ j, j ∈ joined ∧ is_grantee j = true ∧ row = to_csv_row j).
  { intros row. unfold grantee_points. rewrite list_elem_of_fmap. split.
    - intros (j & -> & [? ?]%list_elem_of_filter). eauto.
    - intros (j & ? & ? & ->). exists j. split; [done|].
      by apply list_elem_of_filter. }
  split; [exact Hflag|split; [exact Hrows|]].
  intros row (j & Hj & Htrue & ->)%Hrows. simpl. split; [done|].
  by apply Hflag.
Qed.
End SpatialJoin.

(** ** The output files *)

Section Emitter.
Context {G : Geo}.
Import CombineData.

Lemma length_append (a b : string) :
  String.length (a +:+ b) = (String.length a + String.length b)%nat.
Proof.
  induction a as [|c a IH]; [done|].
  change (String c a +:+ b) with (String c (a +:+ b)). simpl. by rewrite IH.
Qed.

Lemma append_length_lt (c : ascii) (b s : string) : s ≠ String c (b +:+ s).
Proof.
  intros Heq. apply (f_equal String.length) in Heq.
  simpl in Heq. rewrite length_append in Heq. lia.
Qed.

Lemma append_suffix_inj (s a b : string) : a +:+ s = b +:+ s → a = b.
Proof.
  revert b. induction a as [|c a IH]; intros [|d b] Heq.
  - done.
  - change (s = String d (b +:+ s)) in Heq. by apply append_length_lt in Heq.
  - change (String c (a +:+ s) = s) in Heq.
    symmetry in Heq. by apply append_length_lt in Heq.
  - change (String c (a +:+ s) = String d (b +:+ s)) in Heq.
    injection Heq as -> Heq. f_equal. by apply IH.
Qed.




(** C9. Every row of the extract repeats the attributes of a point of the
    canonical set, with longitude and latitude taken from its geometry;
    it carries the two labels, obtained from type and tag by replacing
    underscores with spaces and title-casing, a non-null region id, and
    the grantee flag, which is true. *)
Theorem extract_columns (points : list canonical_point)
    (grantees_gdf : list grantee_row) (grantees : list grantee) row :
  row ∈ grantee_points
          (points_with_tracts (add_labels <$> points) grantees_gdf grantees) →
  (∃ p, p ∈ points ∧
        csv_name row = name p ∧ csv_type row = type p ∧ csv_tag row = tag p ∧
        csv_flags row = flags p ∧ csv_quality row = quality p ∧
        (csv_lng row, csv_lat row) = pt_geometry p) ∧
  csv_type_label row = PyStr.title (PyStr.replace "_" " " (csv_type row)) ∧
  csv_tag_label row =
    (λ tag, PyStr.title (PyStr.replace "_" " " tag)) <$> csv_tag row ∧
  csv_GEOID20 row ≠ None ∧
  csv_grantee row = true.
Proof.
  unfold grantee_points.
  intros (j & -> & [Htrue Hj]%list_elem_of_filter)%list_elem_of_fmap.
  pose proof Hj as (Hp & _ & Hflag & _)%elem_of_points_with_tracts.
  apply list_elem_of_fmap in Hp as (p & Hlab & Hp).
  rewrite Htrue in Hflag. symmetry in Hflag.
  apply isin_true in Hflag as (k & Hk & _).
  unfold to_csv_row. simpl. rewrite Hlab. simpl.
  split; [|by rewrite Hk].
  exists p. repeat split; try done. by destruct (pt_geometry p).
Qed.
End Emitter.

(** ** The run *)

Section RunProperties.
Context {G : Geo}.
Import CombineData.

Lemma set_cache_same (w : world) : set_cache (grantees_raw_geojson w) w = w.
Proof. by destruct w. Qed.

Lemma for_each_write {A} (l : list A) (path : A → string) (content : A → asset) w :
  for_each l (λ x, write (path x) (content x)) w =
  (Value (), set_assets (write_all ((λ x, (path x, content x)) <$> l) (assets w)) w).
Proof.
  revert w. induction l as [|x l IH]; intros w.
  - simpl. unfold mret, M_ret. by destruct w.
  - simpl. unfold mbind, M_bind, write at 1. rewrite IH. by destruct w.
Qed.

(** Step 1 by cases on the refresh flag, the cache file and the response. *)
Lemma fetch_grantees_cases force resp (w : world) :
  fetch_grantees force resp w =
  match force, grantees_raw_geojson w, resp with
  | false, Holds rows, _ => (Value rows, w)
  | _, _, Text (Some rows) => (Value rows, set_cache (Holds rows) w)
  | _, _, Text None => (Raised cache_path, set_cache Unreadable w)
  | _, Holds rows, RequestException => (Value rows, w)
  | _, Unreadable, RequestException => (Raised cache_path, w)
  | _, Absent, RequestException => (Returned, w)
  end.
Proof.
  destruct w as [cache ? ? ? ? ? ? ?].
  by destruct force, cache as [| |cached], resp as [|[rows|]].
Qed.

(** What step 1 does depends on the cache file only, and changes nothing
    else; when it yields rows, the cache file holds them afterwards. *)
Lemma fetch_grantees_frame force resp (w : world) :
  ∃ o c, (∀ w2 : world, grantees_raw_geojson w2 = grantees_raw_geojson w →
                fetch_grantees force resp w2 = (o, set_cache c w2)) ∧
         (∀ rows, o = Value rows → c = Holds rows).
Proof.
  destruct force, (grantees_raw_geojson w) as [| |cached] eqn:Hc, resp as [|[rows|]];
    eexists _, _;
    (split; [intros w2 Hw2; rewrite fetch_grantees_cases, Hw2;
             rewrite <- 1?(set_cache_same w2), ?Hw2; reflexivity|]);
    first [by intros ? [= <-] | by intros ? [=]].
Qed.

(** The run in closed form: the first source that cannot be read ends it,
    otherwise the files of [written] are written in order. *)
Lemma run_cases force resp (w : world) :
  run force resp w =
  match fetch_grantees force resp w with
  | (Value raw, w1) =>
      match resources_csv w1 with
      | Holds points_df =>
      match fdic_geojson w1 with
      | Holds fdic =>
      match ncua_geojson w1 with
      | Holds ncua =>
      match childcare_geojson w1 with
      | Holds childcare =>
      match maryland_food_bank_geojson w1 with
      | Holds mfb =>
      match capital_area_food_bank_geojson w1 with
      | Holds cafb =>
          (Value (),
           set_assets
             (write_all (written raw points_df fdic ncua childcare mfb cafb)
                        (assets w1)) w1)
      | _ => (Raised "input/capital_area_food_bank.geojson", w1) end
      | _ => (Raised "input/maryland_food_bank.geojson", w1) end
      | _ => (Raised "input/childcare.geojson", w1) end
      | _ => (Raised "input/ncua.geojson", w1) end
      | _ => (Raised "input/fdic.geojson", w1) end
      | _ => (Raised "input/resources.csv", w1) end
  | (Returned, w1) => (Returned, w1)
  | (Raised path, w1) => (Raised path, w1)
  end.
Proof.
  unfold run, mbind, M_bind.
  destruct (fetch_grantees force resp w) as [[raw| |path] w1]; [|done..].
  unfold read_file.
  destruct (resources_csv w1) as [| |points_df]; [done..|].
  destruct (fdic_geojson w1) as [| |fdic]; [done..|].
  destruct (ncua_geojson w1) as [| |ncua]; [done..|].
  destruct (childcare_geojson w1) as [| |childcare]; [done..|].
  destruct (maryland_food_bank_geojson w1) as [| |mfb]; [done..|].
  destruct (capital_area_food_bank_geojson w1) as [| |cafb]; [done..|].
  unfold write at 1. rewrite for_each_write. unfold write.
  unfold written, outputs, write_all.
  cbn [foldl fst snd]. rewrite foldl_app. by destruct w1.
Qed.

(** A run that does not complete leaves the asset directory as it was. *)
Lemma run_no_partial_output force resp (w : world) :
  (run force resp w).1 ≠ Value () →
  assets (run force resp w).2 = assets w.
Proof.
  rewrite run_cases.
  destruct (fetch_grantees_frame force resp w) as (o & c & Hfetch & _).
  rewrite (Hfetch w eq_refl). destruct o as [raw| |path]; [|done..].
  cbn [resources_csv fdic_geojson ncua_geojson childcare_geojson
       maryland_food_bank_geojson capital_area_food_bank_geojson set_cache].
  destruct (resources_csv w) as [| |points_df]; [done..|].
  destruct (fdic_geojson w) as [| |fdic]; [done..|].
  destruct (ncua_geojson w) as [| |ncua]; [done..|].
  destruct (childcare_geojson w) as [| |childcare]; [done..|].
  destruct (maryland_food_bank_geojson w) as [| |mfb]; [done..|].
  destruct (capital_area_food_bank_geojson w) as [| |cafb]; [done..|].
  by intros [].
Qed.

(** A run that completes has read all seven sources. *)
Lemma run_completes_inv force resp (w : world) :
  (run force resp w).1 = Value () →
  ∃ raw points_df fdic ncua childcare mfb cafb,
    (fetch_grantees force resp w).1 = Value raw ∧
    resources_csv w = Holds points_df ∧
    fdic_geojson w = Holds fdic ∧
    ncua_geojson w = Holds ncua ∧
    childcare_geojson w = Holds childcare ∧
    maryland_food_bank_geojson w = Holds mfb ∧
    capital_area_food_bank_geojson w = Holds cafb ∧
    run force resp w =
      (Value (),
       set_assets (write_all (written raw points_df fdic ncua childcare mfb cafb)
                             (assets w))
                  (fetch_grantees force resp w).2).
Proof.
  rewrite run_cases.
  destruct (fetch_grantees_frame force resp w) as (o & c & Hfetch & _).
  rewrite (Hfetch w eq_refl). destruct o as [raw| |path]; [|done..].
  cbn [resources_csv fdic_geojson ncua_geojson childcare_geojson
       maryland_food_bank_geojson capital_area_food_bank_geojson set_cache].
  destruct (resources_csv w) as [| |points_df]; [done..|].
  destruct (fdic_geojson w) as [| |fdic]; [done..|].
  destruct (ncua_geojson w) as [| |ncua]; [done..|].
  destruct (childcare_geojson w) as [| |childcare]; [done..|].
  destruct (maryland_food_bank_geojson w) as [| |mfb]; [done..|].
  destruct (capital_area_food_bank_geojson w) as [| |cafb]; [done..|].
  intros _. by exists raw, points_df, fdic, ncua, childcare, mfb, cafb.
Qed.

(** Writing is last-write-wins, so repeating a sequence of writes changes
    nothing. *)
Lemma write_all_union (writes : list (string * asset)) (dir : gmap string asset) :
  write_all writes dir = list_to_map (reverse writes) ∪ dir.
Proof.
  unfold write_all. revert dir.
  induction writes as [|[file content] writes IH]; intros dir.
  - simpl. by rewrite (left_id_L ∅ (∪)).
  - simpl. rewrite IH, reverse_cons, list_to_map_app. simpl.
    rewrite insert_empty, <- (assoc_L (∪)).
    by rewrite <- insert_union_singleton_l.
Qed.

Lemma write_all_idemp (writes : list (string * asset)) (dir : gmap string asset) :
  write_all writes (write_all writes dir) = write_all writes dir.
Proof.
  rewrite !write_all_union, (assoc_L (∪)). by rewrite (idemp_L (∪)).
Qed.

(** C7. If one of the six point sources is absent, or the grantee cache
    cannot be read while the download fails, the run does not complete and
    the asset directory is left exactly as it was: no output file is
    written. *)
Theorem missing_input_aborts_without_output force resp (w : world) :
  file_exists (resources_csv w) = false ∨
  file_exists (fdic_geojson w) = false ∨
  file_exists (ncua_geojson w) = false ∨
  file_exists (childcare_geojson w) = false ∨
  file_exists (maryland_food_bank_geojson w) = false ∨
  file_exists (capital_area_food_bank_geojson w) = false ∨
  (resp = RequestException ∧ ∀ rows, grantees_raw_geojson w ≠ Holds rows) →
  (run force resp w).1 ≠ Value () ∧
  assets (run force resp w).2 = assets w.
Proof.
  intros Hmissing.
  assert (Hstop : (run force resp w).1 ≠ Value ()).
  { intros (raw & points_df & fdic & ncua & childcare & mfb & cafb & Hraw &
            Hpoints & Hfdic & Hncua & Hchildcare & Hmfb & Hcafb & _)%run_completes_inv.
    rewrite Hpoints, Hfdic, Hncua, Hchildcare, Hmfb, Hcafb in Hmissing.
    destruct Hmissing as [?|[?|[?|[?|[?|[?|[-> Hcache]]]]]]]; try done.
    rewrite fetch_grantees_cases in Hraw.
    destruct force, (grantees_raw_geojson w) as [| |cached] eqn:Hc; try done;
      by destruct (Hcache cached). }
  split; [done|]. by apply run_no_partial_output.
Qed.

Lemma run_idempotent force resp (w : world) :
  (run force resp w).1 = Value () →
  ∀ resp', run false resp' (run force resp w).2 = (Value (), (run force resp w).2).
Proof.
  intros (raw & points_df & fdic & ncua & childcare & mfb & cafb & Hraw &
          Hpoints & Hfdic & Hncua & Hchildcare & Hmfb & Hcafb & ->)%run_completes_inv.
  intros resp'.
  destruct (fetch_grantees_frame force resp w) as (o & c & Hfetch & Hval).
  rewrite (Hfetch w eq_refl) in *. simpl in Hraw. subst o.
  rewrite (Hval raw eq_refl). cbn [snd].
  rewrite run_cases, fetch_grantees_cases.
  cbn [grantees_raw_geojson resources_csv fdic_geojson ncua_geojson
       childcare_geojson maryland_food_bank_geojson
       capital_area_food_bank_geojson set_cache set_assets assets].
  rewrite Hpoints, Hfdic, Hncua, Hchildcare, Hmfb, Hcafb.
  by rewrite write_all_idemp.
Qed.

(** C8. Two runs that find the same input files, the same refresh flag and
    the same response end the same way, leave the same cache file and
    perform the same sequence of writes, so that equal asset directories
    before give equal asset directories after; and a run repeated on the
    files a completed run leaves behind writes the same files again. *)
Theorem run_twice_same_outputs force resp (w1 w2 : world) :
  grantees_raw_geojson w1 = grantees_raw_geojson w2 →
  resources_csv w1 = resources_csv w2 →
  fdic_geojson w1 = fdic_geojson w2 →
  ncua_geojson w1 = ncua_geojson w2 →
  childcare_geojson w1 = childcare_geojson w2 →
  maryland_food_bank_geojson w1 = maryland_food_bank_geojson w2 →
  capital_area_food_bank_geojson w1 = capital_area_food_bank_geojson w2 →
  (run force resp w1).1 = (run force resp w2).1 ∧
  grantees_raw_geojson (run force resp w1).2 =
    grantees_raw_geojson (run force resp w2).2 ∧
  (∃ writes,
     assets (run force resp w1).2 = write_all writes (assets w1) ∧
     assets (run force resp w2).2 = write_all writes (assets w2)) ∧
  (assets w1 = assets w2 →
   assets (run force resp w1).2 = assets (run force resp w2).2) ∧
  ((run force resp w1).1 = Value () →
   ∀ resp', run false resp' (run force resp w1).2 =
            (Value (), (run force resp w1).2)).
Proof.
  intros Hcache Hpoints Hfdic Hncua Hchildcare Hmfb Hcafb.
  assert (Hsame : (run force resp w1).1 = (run force resp w2).1 ∧
    grantees_raw_geojson (run force resp w1).2 =
      grantees_raw_geojson (run force resp w2).2 ∧
    ∃ writes,
      assets (run force resp w1).2 = write_all writes (assets w1) ∧
      assets (run force resp w2).2 = write_all writes (assets w2)).
  { rewrite !run_cases.
    destruct (fetch_grantees_frame force resp w1) as (o & c & Hfetch & _).
    rewrite (Hfetch w1 eq_refl), (Hfetch w2 (eq_sym Hcache)).
    destruct o as [raw| |path]; [|by repeat split; exists []..].
    cbn [resources_csv fdic_geojson ncua_geojson childcare_geojson
         maryland_food_bank_geojson capital_area_food_bank_geojson set_cache].
    rewrite <- Hpoints, <- Hfdic, <- Hncua, <- Hchildcare, <- Hmfb, <- Hcafb.
    destruct (resources_csv w1) as [| |points_df]; [by repeat split; exists []..|].
    destruct (fdic_geojson w1) as [| |fdic]; [by repeat split; exists []..|].
    destruct (ncua_geojson w1) as [| |ncua]; [by repeat split; exists []..|].
    destruct (childcare_geojson w1) as [| |childcare];
      [by repeat split; exists []..|].
    destruct (maryland_food_bank_geojson w1) as [| |mfb];
      [by repeat split; exists []..|].
    destruct (capital_area_food_bank_geojson w1) as [| |cafb];
      [by repeat split; exists []..|].
    repeat split. by eexists. }
  destruct Hsame as (Hend & Hcache' & writes & Hw1 & Hw2).
  split; [done|split; [done|split; [by exists writes|split]]].
  - intros Hassets. by rewrite Hw1, Hw2, Hassets.
  - apply run_idempotent.
Qed.
End RunProperties.

(** ** Childcare features *)

Section ChildcareFeatures.
Context {P : PyNum}.
Import MarylandExcel.


End ChildcareFeatures.

(** * Worked instances *)

Section Instances.
Import CombineData MarylandExcel.

(** C1, as stated, fails: the market lies in the polygons of the two
    eligible regions R1 and R2, and the join yields two joined rows for it,
    one per region. *)
Lemma market_joined_twice :
  GEOID20 <$> containing Sample.market_point (grantees Sample.nested) = ["R1"; "R2"] ∧
  pt_GEOID20 <$> points_with_tracts [Sample.market_point] Sample.nested
                   (grantees Sample.nested) = [Some "R1"; Some "R2"].
Proof. split; vm_compute; reflexivity. Qed.

Lemma market_rows_witness :
  List.length
    ((λ r, {| labelled := r.1; pt_GEOID20 := r.2;
              is_grantee := isin r.2 (grantee_geoids (grantees Sample.nested)) |})
       <$> sjoin_row (join_targets (grantees Sample.nested)) Sample.market_point)
  = Nat.max 1 (List.length (containing Sample.market_point (grantees Sample.nested))).
Proof.
  exact (proj1 (proj2 (proj2 (proj2
    (sjoin_one_row_per_containing_region [Sample.market_point] Sample.nested
       (grantees Sample.nested)) Sample.market_point)))).
Defined.

(** C3, as stated, fails: the first raw row of R1 has a null track type,
    the aggregated row has the track type of the second. *)
Lemma track_type_skips_null_first_row :
  raw_GOC_TRACK_TYPE <$> head (group "R1" Sample.late_track) = Some None ∧
  GOC_TRACK_TYPE <$> grantees_processed Sample.late_track = [Some "T"].
Proof. split; vm_compute; reflexivity. Qed.

Lemma one_region_witness :
  head (group "R1" Sample.one_region) =
    Some (Sample.boundary (Some "R1") (Some "A") (Some "T") (Rect.square 4)) ∧
  filter (λ g, GEOID20 g = "R1") (grantees_processed Sample.one_region) =
    [@Build_grantee Rect.geo "R1" (Rect.square 4) "A; B" (Some "T")].
Proof.
  split; [reflexivity|].
  exact (proj2 (proj2 (boundary_loader_one_row_per_region Sample.one_region)
                  "R1" _ eq_refl)).
Defined.

Lemma market_retained_witness :
  Sample.market_point ∈ Sample.all_points ∧
  within (geom Sample.market_point) (md_tracts_union Sample.nested) = true ∧
  ∃ j, j ∈ Sample.joined ∧ labelled j = Sample.market_point.
Proof.
  assert (Hin : Sample.market_point ∈ Sample.all_points) by (vm_compute; left).
  assert (Hwithin : within (geom Sample.market_point)
                      (md_tracts_union Sample.nested) = true) by reflexivity.
  split; [exact Hin|split; [exact Hwithin|]].
  exact (proj1 (only_points_within_union Sample.all_points Sample.nested
                  (grantees Sample.nested)) Sample.market_point Hin Hwithin).
Defined.

Lemma bank_row_eligible_witness :
  Sample.bank_row ∈ grantee_points Sample.joined ∧
  csv_grantee Sample.bank_row = true ∧
  ∃ k, csv_GEOID20 Sample.bank_row = Some k ∧
       k ∈ GEOID20 <$> grantees Sample.nested.
Proof.
  assert (Hrow : Sample.bank_row ∈ grantee_points Sample.joined)
    by (vm_compute; do 2 right; left).
  split; [exact Hrow|].
  exact (proj2 (proj2 (extract_rows_are_eligible Sample.all_points Sample.nested
                         (grantees Sample.nested))) Sample.bank_row Hrow).
Defined.



Lemma no_resources_witness :
  file_exists (resources_csv Sample.no_resources) = false ∧
  (run false RequestException Sample.no_resources).1 ≠ Value () ∧
  assets (run false RequestException Sample.no_resources).2 =
    assets Sample.no_resources.
Proof.
  split; [reflexivity|].
  apply missing_input_aborts_without_output. left. reflexivity.
Defined.

Lemma stale_directory_witness :
  (run false RequestException Sample.complete).1 =
    (run false RequestException Sample.complete_stale).1 ∧
  grantees_raw_geojson (run false RequestException Sample.complete).2 =
    grantees_raw_geojson (run false RequestException Sample.complete_stale).2 ∧
  (∃ writes,
     assets (run false RequestException Sample.complete).2 =
       write_all writes (assets Sample.complete) ∧
     assets (run false RequestException Sample.complete_stale).2 =
       write_all writes (assets Sample.complete_stale)) ∧
  (assets Sample.complete = assets Sample.complete_stale →
   assets (run false RequestException Sample.complete).2 =
     assets (run false RequestException Sample.complete_stale).2) ∧
  ((run false RequestException Sample.complete).1 = Value () →
   ∀ resp', run false resp' (run false RequestException Sample.complete).2 =
            (Value (), (run false RequestException Sample.complete).2)).
Proof.
  apply (run_twice_same_outputs false RequestException
           Sample.complete Sample.complete_stale); reflexivity.
Defined.

Lemma bank_row_columns_witness :
  Sample.bank_row ∈ grantee_points
    (points_with_tracts (add_labels <$> Sample.points) Sample.nested
       (grantees Sample.nested)) ∧
  csv_type_label Sample.bank_row = "Financial" ∧
  csv_tag_label Sample.bank_row = Some "Bank" ∧
  csv_GEOID20 Sample.bank_row ≠ None ∧
  csv_grantee Sample.bank_row = true.
Proof.
  assert (Hrow : Sample.bank_row ∈ grantee_points
            (points_with_tracts (add_labels <$> Sample.points) Sample.nested
               (grantees Sample.nested)))
    by (vm_compute; do 2 right; left).
  split; [exact Hrow|].
  exact (proj2 (extract_columns Sample.points Sample.nested
                  (grantees Sample.nested) Sample.bank_row Hrow)).
Defined.

End Instances.

(** * Further properties of the code *)

(** ** Order and uniqueness of the region tables *)

Section RegionOrder.
Context {G : Geo}.
Import CombineData.

Lemma fmap_drop_duplicates_from {A K} `{EqDecision K} (key : A → K) seen (df : list A) :
  key <$> Pandas.drop_duplicates_from key seen df =
  Pandas.drop_duplicates_from id seen (key <$> df).
Proof.
  revert seen. induction df as [|r df IH]; intros seen; [done|].
  simpl. case_decide; [apply IH|]. rewrite fmap_cons. f_equal. apply IH.
Qed.

Lemma dropna_drop_duplicates_from {K} `{EqDecision K} seen (s : list (option K)) :
  Pandas.dropna (Pandas.drop_duplicates_from id seen s) =
  Pandas.drop_duplicates_from id (Pandas.dropna seen) (Pandas.dropna s).
Proof.
  unfold Pandas.dropna. revert seen.
  induction s as [|[k|] s IH]; intros seen; [done| |].
  - simpl. destruct (decide (Some k ∈ seen)) as [Hin|Hout].
    + rewrite decide_True; [apply IH|].
      apply list_elem_of_omap. by exists (Some k).
    + rewrite decide_False.
      * simpl. f_equal. apply (IH (Some k :: seen)).
      * intros ([k'|] & Hk' & [= ->])%list_elem_of_omap. done.
  - simpl. case_decide; [apply IH|]. simpl. apply (IH (None :: seen)).
Qed.

Lemma bind_option_list {A B} (f : A → option B) (l : list A) :
  l ≫= (λ x, option_list (f x)) = omap f l.
Proof.
  induction l as [|x l IH]; [done|].
  rewrite bind_cons, IH. simpl. by destruct (f x).
Qed.

Lemma omap_fmap_id {A B} (f : A → option B) (l : list A) :
  omap f l = Pandas.dropna (f <$> l).
Proof.
  unfold Pandas.dropna. induction l as [|x l IH]; [done|].
  csimpl. unfold id at 1. destruct (f x); csimpl; by rewrite IH.
Qed.

Lemma grantees_processed_keys (grantees_gdf : list grantee_row) :
  GEOID20 <$> grantees_processed grantees_gdf =
  Pandas.unique (Pandas.dropna (raw_GEOID20 <$> grantees_gdf)).
Proof.
  unfold grantees_processed, merge. rewrite fmap_bind.
  rewrite (Forall_bind_ext _ (λ l, option_list l.1)).
  - rewrite bind_option_list, omap_fmap_id. unfold unique_geometry.
    rewrite <- list_fmap_compose.
    change (fst ∘ _) with raw_GEOID20.
    unfold Pandas.drop_duplicates.
    rewrite fmap_drop_duplicates_from, dropna_drop_duplicates_from. done.
  - apply Forall_forall. intros l Hl. unfold unique_geometry in Hl.
    apply list_elem_of_fmap in Hl as (r & -> & Hr). simpl.
    apply elem_of_drop_duplicates_from in Hr as [Hr _].
    destruct (raw_GEOID20 r) as [k|] eqn:Hk.
    + rewrite (grantee_data_lookup grantees_gdf k); [done|].
      apply list_elem_of_fmap. by exists r.
    + rewrite filter_none; [done|]. by apply Forall_forall.
Qed.

(** X1. The deduplicated boundary table lists the distinct non-null region
    ids of the raw input in order of first appearance: the key order of the
    groupby is not visible after the merge, and no id occurs twice. *)
Theorem grantees_processed_ids (grantees_gdf : list grantee_row) :
  GEOID20 <$> grantees_processed grantees_gdf =
    Pandas.unique (Pandas.dropna (raw_GEOID20 <$> grantees_gdf)) ∧
  NoDup (GEOID20 <$> grantees_processed grantees_gdf).
Proof.
  rewrite grantees_processed_keys. split; [done|apply NoDup_unique].
Qed.

(** X2. The eligible regions have pairwise distinct ids, so the joined rows
    of one point carry pairwise distinct region ids: a point never gets two
    rows for the same region. *)
Theorem joined_rows_distinct_regions (grantees_gdf : list grantee_row) p :
  NoDup (GEOID20 <$> grantees grantees_gdf) ∧
  NoDup (snd <$> sjoin_row (join_targets (grantees grantees_gdf)) p).
Proof.
  assert (Hnodup : NoDup (GEOID20 <$> grantees grantees_gdf)).
  { apply (sublist_NoDup _ (GEOID20 <$> grantees_processed grantees_gdf)).
    - rewrite grantees_processed_keys. apply NoDup_unique.
    - apply fmap_sublist, sublist_filter. }
  split; [exact Hnodup|].
  rewrite sjoin_row_targets.
  assert (Hc : NoDup (GEOID20 <$> containing p (grantees grantees_gdf))).
  { eapply sublist_NoDup; [exact Hnodup|]. apply fmap_sublist, sublist_filter. }
  destruct (containing p (grantees grantees_gdf)) as [|g gs].
  { apply NoDup_singleton. }
  rewrite <- list_fmap_compose.
  assert (Heq : (snd ∘ (λ g0 : grantee, (p, Some (GEOID20 g0)))) <$> g :: gs =
                Some <$> (GEOID20 <$> g :: gs)) by (by rewrite <- list_fmap_compose).
  rewrite Heq. by apply (NoDup_fmap_2 Some).
Qed.
End RegionOrder.

(** ** The grantee cache *)

Section CachePolicy.
Context {G : Geo}.
Import CombineData.

(** The run is determined by what step 1 yields. *)
Lemma run_after_fetch force1 resp1 force2 resp2 (w1 w2 : world) :
  fetch_grantees force1 resp1 w1 = fetch_grantees force2 resp2 w2 →
  run force1 resp1 w1 = run force2 resp2 w2.
Proof. intros Hfetch. by rewrite !run_cases, Hfetch. Qed.

Lemma run_cache_after force resp (w : world) :
  grantees_raw_geojson (run force resp w).2 =
  grantees_raw_geojson (fetch_grantees force resp w).2.
Proof.
  rewrite run_cases.
  destruct (fetch_grantees force resp w) as [[raw| |path] w1]; [|done..].
  destruct (resources_csv w1) as [| |points_df]; [done..|].
  destruct (fdic_geojson w1) as [| |fdic]; [done..|].
  destruct (ncua_geojson w1) as [| |ncua]; [done..|].
  destruct (childcare_geojson w1) as [| |childcare]; [done..|].
  destruct (maryland_food_bank_geojson w1) as [| |mfb]; [done..|].
  by destruct (capital_area_food_bank_geojson w1) as [| |cafb].
Qed.

(** X3. With a readable cache and no forced refresh the response of the
    server plays no part: the run is the same whatever the download would
    give, and the cache file is left as it was. *)
Theorem readable_cache_ignores_response (w : world) rows :
  grantees_raw_geojson w = Holds rows →
  ∀ resp1 resp2,
    run false resp1 w = run false resp2 w ∧
    grantees_raw_geojson (run false resp1 w).2 = Holds rows.
Proof.
  intros Hcache resp1 resp2. split.
  - apply run_after_fetch. by rewrite !fetch_grantees_cases, Hcache.
  - by rewrite run_cache_after, fetch_grantees_cases, Hcache.
Qed.

(** X4. A forced refresh whose download fails falls back to a readable
    cache: the run is the one an unforced run would have made. *)
Theorem failed_refresh_uses_stale_cache (w : world) rows :
  grantees_raw_geojson w = Holds rows →
  ∀ resp, run true RequestException w = run false resp w.
Proof.
  intros Hcache resp. apply run_after_fetch.
  by rewrite !fetch_grantees_cases, Hcache.
Qed.

(** X5. When the refresh is forced or the cache cannot be read, a download
    whose body parses replaces the cache file, and the run is the one an
    unforced run over that new cache would make. *)
Theorem download_replaces_cache force (w : world) body :
  force = true ∨ (∀ rows, grantees_raw_geojson w ≠ Holds rows) →
  grantees_raw_geojson (run force (Text (Some body)) w).2 = Holds body ∧
  ∀ resp, run force (Text (Some body)) w =
          run false resp (set_cache (Holds body) w).
Proof.
  intros Hneeded.
  assert (Hfetch : fetch_grantees force (Text (Some body)) w =
                   (Value body, set_cache (Holds body) w)).
  { rewrite fetch_grantees_cases.
    destruct force, (grantees_raw_geojson w) as [| |cached] eqn:Hc; try done.
    destruct Hneeded as [?|Hno]; [done|]. by destruct (Hno cached). }
  split.
  - by rewrite run_cache_after, Hfetch.
  - intros resp. apply run_after_fetch. by rewrite Hfetch, fetch_grantees_cases.
Qed.

(** X6. When the refresh is forced or the cache cannot be read, a download
    whose body does not parse is still written over the cache file; the run
    then stops on reading it back, with no output written. A forced refresh
    can therefore replace a readable cache by an unreadable one. *)
Theorem unparsable_download_overwrites_cache force (w : world) :
  force = true ∨ (∀ rows, grantees_raw_geojson w ≠ Holds rows) →
  run force (Text None) w = (Raised cache_path, set_cache Unreadable w).
Proof.
  intros Hneeded. rewrite run_cases, fetch_grantees_cases.
  destruct force, (grantees_raw_geojson w) as [| |cached] eqn:Hc; try done.
  destruct Hneeded as [?|Hno]; [done|]. by destruct (Hno cached).
Qed.
End CachePolicy.

(** ** The asset directory after the writes *)

Section AssetDirectory.
Context {G : Geo}.
Import CombineData.

Lemma append_same_length_suffix (a b s t : string) :
  a +:+ s = b +:+ t → String.length s = String.length t → s = t.
Proof.
  revert b. induction a as [|c a IH]; intros [|d b] Heq Hlen.
  - done.
  - change (s = String d (b +:+ t)) in Heq.
    apply (f_equal String.length) in Heq. simpl in Heq.
    rewrite length_append in Heq. lia.
  - change (String c (a +:+ s) = t) in Heq.
    apply (f_equal String.length) in Heq. simpl in Heq.
    rewrite length_append in Heq. lia.
  - change (String c (a +:+ s) = String d (b +:+ t)) in Heq.
    injection Heq as _ Heq. by apply (IH b).
Qed.

Lemma geojson_not_extract (category : string) :
  category +:+ ".geojson" ≠ "grantee_points.csv".
Proof.
  intros Heq.
  change "grantee_points.csv" with ("grantee_po" +:+ "ints.csv") in Heq.
  by apply append_same_length_suffix in Heq.
Qed.

Lemma write_all_snoc (writes : list (string * asset)) file content
    (dir : gmap string asset) :
  write_all (writes ++ [(file, content)]) dir =
  <[file := content]> (write_all writes dir).
Proof. unfold write_all. by rewrite foldl_app. Qed.

Lemma write_all_lookup_other (writes : list (string * asset))
    (dir : gmap string asset) file :
  file ∉ writes.*1 → write_all writes dir !! file = dir !! file.
Proof.
  unfold write_all. revert dir.
  induction writes as [|[f c] writes IH]; intros dir Hfile; [done|].
  simpl. rewrite IH.
  - apply lookup_insert_ne. intros ->. apply Hfile. by left.
  - intros ?. apply Hfile. by right.
Qed.

Lemma write_all_lookup_written (writes : list (string * asset))
    (dir : gmap string asset) file content :
  NoDup writes.*1 → (file, content) ∈ writes →
  write_all writes dir !! file = Some content.
Proof.
  revert dir. induction writes as [|[f c] writes IH]; intros dir Hnodup Hin.
  { by apply elem_of_nil in Hin. }
  apply NoDup_cons in Hnodup as [Hf Hnodup].
  apply elem_of_cons in Hin as [[= -> ->]|Hin].
  - change (write_all writes (<[f := c]> dir) !! f = Some c).
    rewrite write_all_lookup_other by done. apply lookup_insert_eq.
  - apply (IH (<[f := c]> dir)); done.
Qed.

Lemma category_writes_files (joined : list joined_point) file :
  file ∈ (category_writes joined).*1 ↔
  ∃ j, j ∈ joined ∧ file = jtype j +:+ ".geojson".
Proof.
  unfold category_writes. rewrite <- list_fmap_compose, list_elem_of_fmap.
  split.
  - intros (t & -> & Ht). simpl.
    apply elem_of_unique, list_elem_of_fmap in Ht as (j & -> & Hj). eauto.
  - intros (j & Hj & ->). exists (jtype j). split; [done|].
    apply elem_of_unique, list_elem_of_fmap. eauto.
Qed.

Lemma category_writes_NoDup (joined : list joined_point) :
  NoDup (category_writes joined).*1.
Proof.
  unfold category_writes. rewrite <- list_fmap_compose.
  apply NoDup_fmap_2_strong; [|apply NoDup_unique].
  intros t1 t2 _ _ Heq. simpl in Heq. by apply append_suffix_inj in Heq.
Qed.

(** X7. After the writes of step 7 the directory holds the eligible regions
    under [grantees.geojson] and the extract under [grantee_points.csv];
    every category other than "grantees" has its file with all its joined
    points; every other file of the directory is as it was before. (The
    file of a category named "grantees" is overwritten by the regions.) *)
Theorem directory_after_writes (joined : list joined_point)
    (grantees : list grantee) (dir : gmap string asset) :
  let after := write_all (outputs joined grantees) dir in
  after !! "grantees.geojson" = Some (GranteesGeoJSON grantees) ∧
  after !! "grantee_points.csv" = Some (Csv (grantee_points joined)) ∧
  (∀ j, j ∈ joined → jtype j ≠ "grantees" →
     after !! (jtype j +:+ ".geojson") =
       Some (PointsGeoJSON (points_subset (jtype j) joined))) ∧
  (∀ file,
     file ≠ "grantees.geojson" → file ≠ "grantee_points.csv" →
     (∀ j, j ∈ joined → file ≠ jtype j +:+ ".geojson") →
     after !! file = dir !! file).
Proof.
  intros after.
  assert (Hafter : after =
    <["grantees.geojson" := GranteesGeoJSON grantees]>
      (write_all (category_writes joined)
         (<["grantee_points.csv" := Csv (grantee_points joined)]> dir))).
  { unfold after, outputs. fold (category_writes joined).
    rewrite app_comm_cons, write_all_snoc. done. }
  rewrite Hafter. split; [apply lookup_insert_eq|]. split; [|split].
  - rewrite lookup_insert_ne by done.
    rewrite write_all_lookup_other; [apply lookup_insert_eq|].
    intros (j & _ & Heq)%category_writes_files.
    symmetry in Heq. by apply geojson_not_extract in Heq.
  - intros j Hj Hother. rewrite lookup_insert_ne.
    + apply write_all_lookup_written; [apply category_writes_NoDup|].
      unfold category_writes. apply list_elem_of_fmap. exists (jtype j).
      split; [done|]. apply elem_of_unique, list_elem_of_fmap. eauto.
    + intros Heq. apply Hother.
      change "grantees.geojson" with ("grantees" +:+ ".geojson") in Heq.
      symmetry. by apply append_suffix_inj in Heq.
  - intros file Hregions Hextract Hcategory.
    rewrite lookup_insert_ne by done.
    rewrite write_all_lookup_other.
    + by rewrite lookup_insert_ne.
    + intros (j & Hj & Heq)%category_writes_files. by apply (Hcategory j).
Qed.



End AssetDirectory.

(** ** The canonical point set and its labels *)

Section CanonicalPoints.
Context {G : Geo}.
Import CombineData.

(** X9. In the concatenated point set the financial service flags occur
    only on credit-union rows, a quality only on childcare rows, and the
    lat/lng columns, where they are filled, repeat the coordinates of the
    geometry (so overwriting them for the extract changes nothing). *)
Theorem source_specific_columns (points_df : list resource_row)
    (fdic : list fdic_row) (ncua : list ncua_row)
    (childcare : list childcare_row) (mfb cafb : list foodbank_row) p :
  p ∈ concat_points points_df fdic ncua childcare mfb cafb →
  (is_Some (flags p) → type p = "financial" ∧ tag p = Some "credit_union") ∧
  (is_Some (quality p) → type p = "childcare") ∧
  (∀ y, lat p = Some y → y = (pt_geometry p).2) ∧
  (∀ x, lng p = Some x → x = (pt_geometry p).1).
Proof.
  unfold concat_points, financial_gdf, points_gdf, fdic_gdf, ncua_gdf,
    childcare_gdf, food_gdf.
  rewrite !elem_of_app, !list_elem_of_fmap.
  intros [(r & -> & _)|[[(r & -> & _)|(r & -> & _)]|[(r & -> & _)|
          [(r & -> & _)|(r & -> & _)]]]]; simpl;
    repeat split; try (by intros [? [=]]); try done; by intros ? [= ->].
Qed.

Lemma title_from_lower b s :
  PyStr.title_from b (PyStr.lower s) = PyStr.title_from b s.
Proof.
  revert b. induction s as [|c s IH]; intros b; [done|].
  simpl. rewrite !IH.
  by destruct b, c as [[] [] [] [] [] [] [] []].
Qed.

Lemma replace_lower s :
  PyStr.replace "_" " " (PyStr.lower s) = PyStr.lower (PyStr.replace "_" " " s).
Proof.
  induction s as [|c s IH]; [done|]. simpl. rewrite IH. f_equal.
  by destruct c as [[] [] [] [] [] [] [] []].
Qed.

Lemma replace_replace s :
  PyStr.replace "_" " " (PyStr.replace " " "_" s) = PyStr.replace "_" " " s.
Proof.
  induction s as [|c s IH]; [done|]. simpl. rewrite IH. f_equal.
  by destruct c as [[] [] [] [] [] [] [] []].
Qed.

(** X10. The tag of a childcare row is derived from the label of the feed
    and the label column is derived back from the tag; the label that
    results is the title-cased feed label with underscores turned into
    spaces, and is the feed label itself when that is already in this
    form. *)
Theorem childcare_label_round_trip (r : childcare_row) :
  (∀ p, p ∈ childcare_gdf [r] →
     tag_label (add_labels p) =
       (λ l, PyStr.title (PyStr.replace "_" " " l)) <$> cc_tag_label r) ∧
  (∀ l, cc_tag_label r = Some l →
        PyStr.replace "_" " " l = l → PyStr.title l = l →
        ∀ p, p ∈ childcare_gdf [r] → tag_label (add_labels p) = Some l).
Proof.
  assert (Hlabel : ∀ p, p ∈ childcare_gdf [r] →
     tag_label (add_labels p) =
       (λ l, PyStr.title (PyStr.replace "_" " " l)) <$> cc_tag_label r).
  { intros p ->%list_elem_of_singleton. simpl.
    destruct (cc_tag_label r) as [l|]; [|done]. simpl. f_equal.
    unfold label, PyStr.title.
    by rewrite replace_replace, replace_lower, title_from_lower. }
  split; [exact Hlabel|].
  intros l Hl Hspaces Htitle p Hp. rewrite (Hlabel p Hp), Hl. simpl.
  by rewrite Hspaces, Htitle.
Qed.
End CanonicalPoints.

(** ** The food-bank fetchers *)

Section FoodBankFetchers.
Context {P : PyNum} {C : PyCompare P}.
Import MarylandExcel Py FoodBank.

Lemma collect_spec {A B} (body : A → outcome (option B)) (items : list A) ys :
  collect body items = Ok ys →
  Forall (λ x, ∃ o, body x = Ok o) items ∧
  ys = omap (λ x, match body x with Ok o => o | Crash _ => None end) items.
Proof.
  revert ys. induction items as [|x items IH]; intros ys; simpl.
  { intros [= <-]. by split. }
  unfold mbind, outcome_bind.
  destruct (body x) as [o|e] eqn:Hx; [|done].
  destruct (collect body items) as [ys'|e]; [|done].
  intros [= <-]. destruct (IH ys' eq_refl) as [Hall ->].
  split; [constructor; eauto|]. by destruct o.
Qed.

Lemma collect_crash {A B} (body : A → outcome (option B)) before x after e :
  Forall (λ x, ∃ o, body x = Ok o) before →
  body x = Crash e →
  collect body (before ++ x :: after) = Crash e.
Proof.
  intros Hbefore Hx. induction Hbefore as [|y before [o Hy] _ IH]; simpl.
  - by rewrite Hx.
  - by rewrite Hy, IH.
Qed.

Lemma collect_length {A B} (body : A → outcome (option B)) (items : list A) ys :
  (∀ x, x ∈ items → body x ≠ Ok None) →
  collect body items = Ok ys →
  List.length ys = List.length items.
Proof.
  revert ys. induction items as [|x items IH]; intros ys Hsome; simpl.
  { by intros [= <-]. }
  unfold mbind, outcome_bind.
  destruct (body x) as [[b|]|e] eqn:Hx; [| |done].
  - destruct (collect body items) as [ys'|e] eqn:Hrest; [|done].
    intros [= <-]. simpl. f_equal. apply IH; [|done].
    intros y Hy. apply Hsome. by right.
  - destruct (Hsome x); [by left|done].
Qed.

Lemma rstrip_cons c s :
  rstrip (String c s) =
  match rstrip s with
  | EmptyString => if is_space c then EmptyString else String c EmptyString
  | r => String c r
  end.
Proof. done. Qed.

Lemma rstrip_idemp s : rstrip (rstrip s) = rstrip s.
Proof.
  induction s as [|c s IH]; [done|]. rewrite rstrip_cons.
  destruct (rstrip s) as [|d r] eqn:Hr.
  - destruct (is_space c) eqn:Hc; [done|]. rewrite rstrip_cons. simpl.
    by rewrite Hc.
  - by rewrite rstrip_cons, IH.
Qed.

Lemma rstrip_head c s :
  is_space c = false → ∃ r, rstrip (String c s) = String c r.
Proof.
  intros Hc. rewrite rstrip_cons. destruct (rstrip s); [rewrite Hc|]; eauto.
Qed.

Lemma lstrip_head s :
  lstrip s = EmptyString ∨ ∃ c s', lstrip s = String c s' ∧ is_space c = false.
Proof.
  induction s as [|c s IH]; [by left|]. simpl.
  destruct (is_space c) eqn:Hc; [done|]. right. eauto.
Qed.

Lemma strip_idemp s : strip (strip s) = strip s.
Proof.
  unfold strip. destruct (lstrip_head s) as [->|(c & s' & -> & Hc)]; [done|].
  destruct (rstrip_head c s' Hc) as [r Hr]. rewrite Hr.
  simpl lstrip. rewrite Hc, <- Hr. apply rstrip_idemp.
Qed.

Lemma cafb_feature_written item f :
  cafb_feature item = Ok (Some f) →
  type f = "Capital Area Food Bank Partner Agency" ∧
  ∃ props s, dict_get item "properties" (JObject []) = Ok props ∧
             dict_get props "name" JNull = Ok (JStr s) ∧
             s ≠ EmptyString ∧ name f = JStr (strip s) ∧
             dict_get item "geometry" JNull = Ok (geometry f).
Proof.
  unfold cafb_feature, mbind, outcome_bind, NAME_FIELD.
  destruct (dict_get item "properties" _) as [props|e] eqn:Hprops; [|done].
  destruct (dict_get props "name" JNull) as [site_name|e] eqn:Hname; [|done].
  destruct (truthy site_name) eqn:Htruthy; simpl; [|done].
  destruct (dict_get item "geometry" JNull) as [g|e] eqn:Hgeometry; [|done].
  destruct site_name as [| | | |s| |]; try done.
  intros [= <-]. simpl. split; [done|]. exists props, s.
  split; [done|split; [done|split; [|done]]]. by intros ->.
Qed.

(** X11. What the Capital Area fetcher writes: the features of the response
    that have a non-empty string name, in the order of the response, each
    with the fixed type and with a name that is stripped (stripping it
    again changes nothing). *)
Theorem cafb_written_features data all_features :
  cafb_run (Body data) = Ok (Some all_features) →
  (∃ features items,
     dict_get data "features" (JList []) = Ok features ∧
     iter features = Ok items ∧
     all_features =
       omap (λ item, match cafb_feature item with
                     | Ok o => o
                     | Crash _ => None
                     end) items) ∧
  ∀ f, f ∈ all_features →
       type f = "Capital Area Food Bank Partner Agency" ∧
       ∃ s, name f = JStr s ∧ strip s = s.
Proof.
  unfold cafb_run, mbind, outcome_bind.
  destruct (dict_get data "features" _) as [features|e] eqn:Hfeatures; [|done].
  destruct (iter features) as [items|e] eqn:Hitems; [|done].
  destruct (collect cafb_feature items) as [fs|e] eqn:Hcollect; [|done].
  intros [= <-]. destruct (collect_spec _ _ _ Hcollect) as [_ Hfs].
  split; [by exists features, items|].
  intros f Hf. rewrite Hfs in Hf.
  apply list_elem_of_omap in Hf as (item & _ & Hitem).
  destruct (cafb_feature item) as [o|e] eqn:Hmade; [|done]. subst o.
  apply cafb_feature_written in Hmade as (Htype & _ & s & _ & _ & _ & Hname & _).
  split; [done|]. exists (strip s). split; [done|apply strip_idemp].
Qed.

(** X12. The test for a missing name comes before the name is stripped: a
    feature whose name is not empty but consists of white space only is
    kept, and written with an empty name. *)
Theorem cafb_blank_name_is_written item props s g :
  dict_get item "properties" (JObject []) = Ok props →
  dict_get props "name" JNull = Ok (JStr s) →
  dict_get item "geometry" JNull = Ok g →
  s ≠ EmptyString → strip s = EmptyString →
  cafb_feature item =
    Ok (Some {| geometry := g;
                type := "Capital Area Food Bank Partner Agency";
                name := JStr EmptyString |}).
Proof.
  intros Hprops Hname Hgeometry Hs Hblank.
  unfold cafb_feature, mbind, outcome_bind, NAME_FIELD.
  rewrite Hprops, Hname. simpl.
  destruct s as [|c s]; [done|]. simpl. by rewrite Hgeometry, Hblank.
Qed.

(** X13. A name that is true in a test but is not a string (a non-zero
    number, a non-empty list or object, [true]) makes the Capital Area
    fetcher raise AttributeError at [strip]: when the features before it go
    through, the run ends there and writes nothing. *)
Theorem cafb_non_string_name_crashes data before item after props site_name :
  dict_get data "features" (JList []) = Ok (JList (before ++ item :: after)) →
  Forall (λ x, ∃ o, cafb_feature x = Ok o) before →
  dict_get item "properties" (JObject []) = Ok props →
  dict_get props "name" JNull = Ok site_name →
  truthy site_name = true → (∀ s, site_name ≠ JStr s) →
  cafb_run (Body data) = Crash AttributeError.
Proof.
  intros Hdata Hbefore Hprops Hname Htruthy Hnot_str.
  unfold cafb_run, mbind, outcome_bind. rewrite Hdata. simpl.
  rewrite (collect_crash _ before item after AttributeError); [done..|].
  unfold cafb_feature, mbind, outcome_bind, NAME_FIELD.
  rewrite Hprops, Hname, Htruthy. simpl.
  destruct item as [| | | | | |members]; try done. simpl.
  destruct site_name as [| | | |s| |]; try done. by destruct (Hnot_str s).
Qed.

(** X14. The Maryland Food Bank fetcher keeps every feature of a layer:
    as many features as the response has, each typed with the expanded
    title of the layer, a string name stripped and any other name passed
    on as it is. *)
Theorem mfb_layer_keeps_every_feature layer data features items fs :
  dict_get data "features" (JList []) = Ok features →
  iter features = Ok items →
  fetch_and_process_layer layer (Body data) = Ok fs →
  List.length fs = List.length items ∧
  ∀ f, f ∈ fs →
       type f = expand_title (title layer) ∧
       (∀ s, name f = JStr s → strip s = s) ∧
       ∃ item props raw,
         item ∈ items ∧
         dict_get item "properties" (JObject []) = Ok props ∧
         dict_get props (name_field layer) JNull = Ok raw ∧
         name f = match raw with JStr s => JStr (strip s) | _ => raw end.
Proof.
  intros Hfeatures Hitems. unfold fetch_and_process_layer, mbind, outcome_bind.
  rewrite Hfeatures, Hitems. intros Hcollect. split.
  - apply (collect_length (mfb_feature layer)); [|done].
    intros x _. unfold mfb_feature, mbind, outcome_bind.
    destruct (dict_get x "properties" _) as [props|e]; [|done].
    destruct (dict_get props _ JNull) as [raw|e]; [|done].
    by destruct (dict_get x "geometry" JNull).
  - intros f Hf. destruct (collect_spec _ _ _ Hcollect) as [_ Hfs].
    rewrite Hfs in Hf. apply list_elem_of_omap in Hf as (item & Hitem & Hmade).
    destruct (mfb_feature layer item) as [o|e] eqn:Hitem_made; [|done]. subst o.
    unfold mfb_feature, mbind, outcome_bind in Hitem_made.
    destruct (dict_get item "properties" _) as [props|e] eqn:Hprops; [|done].
    destruct (dict_get props (name_field layer) JNull) as [raw|e] eqn:Hraw; [|done].
    destruct (dict_get item "geometry" JNull) as [g|e]; [|done].
    injection Hitem_made as <-. simpl. split; [done|]. split.
    + destruct raw as [| | | |s'| |]; try done.
      intros s [= <-]. apply strip_idemp.
    + by exists item, props, raw.
Qed.

(** X15. The Maryland Food Bank run writes the features of the layers one
    after the other in the order of the layer list; a layer whose download
    or decoding fails contributes none, and the (then empty) collection is
    written even when every layer fails. *)
Theorem mfb_run_concatenates (layers : list layer_info) download :
  (∀ all_features,
     mfb_run layers download = Ok all_features →
     all_features =
       layers ≫= (λ layer,
         match fetch_and_process_layer layer (download layer) with
         | Ok features => features
         | Crash _ => []
         end)) ∧
  ((∀ layer, layer ∈ layers →
             download layer = RequestException ∨ download layer = JSONDecodeError) →
   mfb_run layers download = Ok []).
Proof.
  split.
  - induction layers as [|layer layers IH]; intros all_features; simpl.
    { by intros [= <-]. }
    destruct (fetch_and_process_layer layer (download layer)) as [fs|e]; [|done].
    destruct (mfb_run layers download) as [rest|e]; [|done].
    intros [= <-]. f_equal. by apply IH.
  - induction layers as [|layer layers IH]; intros Hfail; [done|].
    simpl. rewrite IH by (intros; apply Hfail; by right).
    by destruct (Hfail layer) as [-> | ->]; [by left| |].
Qed.
Lemma sub_word_no_match acronym full_name previous_is_word s :
  search_word acronym previous_is_word s = false →
  sub_word acronym full_name 0 previous_is_word s = s.
Proof.
  revert previous_is_word. induction s as [|c s IH]; intros b Hsearch; [done|].
  cbn [search_word] in Hsearch. apply orb_false_iff in Hsearch as [Hhere Hrest].
  cbn [sub_word]. rewrite Hhere. f_equal. by apply IH.
Qed.

Lemma elem_of_insert_by_length (x y : string * string) l :
  y ∈ insert_by_length x l → y = x ∨ y ∈ l.
Proof.
  induction l as [|z l IH]; simpl.
  - intros ->%list_elem_of_singleton. by left.
  - destruct (Nat.leb _ _).
    + intros [->|Hin]%elem_of_cons; [by left|by right].
    + intros [->|Hin]%elem_of_cons; [right; left|].
      destruct (IH Hin) as [->|Hl]; [by left|right; by right].
Qed.

Lemma elem_of_longest_first (y : string * string) l :
  y ∈ longest_first l → y ∈ l.
Proof.
  induction l as [|x l IH]; simpl; [done|].
  intros [->|Hin]%elem_of_insert_by_length; [left|right; by apply IH].
Qed.

(** X23. A title in which no acronym of the map stands as a whole word is
    returned as it is: an acronym inside a longer word is not expanded. *)
Theorem expand_title_without_acronym (title : string) :
  Forall (λ item, search_word item.1 false title = false) ACRONYM_MAP →
  expand_title title = title.
Proof.
  intros Hnone. unfold expand_title.
  assert (Hsorted : Forall (λ item, search_word item.1 false title = false)
                      (longest_first ACRONYM_MAP)).
  { apply Forall_forall. intros item Hitem%elem_of_longest_first.
    by apply (proj1 (Forall_forall _ _) Hnone). }
  induction Hsorted as [|item items Hitem _ IH]; [done|].
  cbn [foldl]. by rewrite (sub_word_no_match _ _ _ _ Hitem).
Qed.

End FoodBankFetchers.

(** ** The childcare scraper *)

Section ChildcareScraper.
Context {P : PyNum} {C : PyCompare P}.
Import MarylandExcel Py ExcelRun.



Lemma build_lookup_maps_snoc (reference_data : list reference) item :
  build_lookup_maps (reference_data ++ [item]) =
  <[ref_id item := item]> (build_lookup_maps reference_data).
Proof. unfold build_lookup_maps. by rewrite foldl_app. Qed.

(** X18. Looking an id up in the map built from a reference table gives
    the last entry of the table with that id, and nothing for an id that
    the table does not have; the ids of [REFERENCE_DATA] are distinct, so
    each of its entries is found under its id. *)
Theorem build_lookup_maps_lookup (reference_data : list reference) n :
  build_lookup_maps reference_data !! n =
    last (filter (λ item, ref_id item = n) reference_data) ∧
  (∀ item, item ∈ REFERENCE_DATA →
           build_lookup_maps REFERENCE_DATA !! ref_id item = Some item).
Proof.
  split.
  - induction reference_data as [|item reference_data IH] using rev_ind; [done|].
    rewrite build_lookup_maps_snoc, filter_app, filter_cons, filter_nil.
    destruct (decide (ref_id item = n)) as [<-|Hne].
    + rewrite lookup_insert_eq. by rewrite last_snoc.
    + rewrite lookup_insert_ne by done. by rewrite (right_id_L [] (++)).
  - intros item Hitem.
    repeat (apply elem_of_cons in Hitem as [->|Hitem]; [by vm_compute|]).
    by apply elem_of_nil in Hitem.
Qed.

Lemma string_le_total : Total Pandas.string_le.
Proof.
  intros a b. unfold Pandas.string_le. apply String.leb_total.
Qed.

Lemma classify_spec (achievements_map : gmap Z reference) (items : list json)
    accs achs :
  classify achievements_map items = Ok (accs, achs) →
  let recognised :=
    omap (λ item, match dict_get item "id" JNull
                        ≫= find_achievement achievements_map with
                  | Ok found => found
                  | Crash _ => None
                  end) items in
  accs = ref_name <$> filter (λ info, ref_type info = "ACCREDITATION") recognised ∧
  achs = ref_name <$> filter (λ info, ref_type info ≠ "ACCREDITATION") recognised.
Proof.
  unfold mbind, outcome_bind.
  revert accs achs. induction items as [|item items IH]; intros accs achs.
  { by intros [= <- <-]. }
  cbn [classify omap list_omap]. unfold mbind, outcome_bind.
  destruct (dict_get item "id" JNull) as [ach_id|e]; [|done].
  destruct (find_achievement achievements_map ach_id) as [found|e]; [|done].
  destruct (classify achievements_map items) as [[accs' achs']|e]; [|done].
  destruct (IH accs' achs' eq_refl) as [Haccs Hachs].
  destruct found as [info|]; [|by intros [= <- <-]].
  destruct (String.eqb_spec (ref_type info) "ACCREDITATION") as [Heq|Hne];
    intros [= <- <-]; simpl in *.
  - rewrite filter_cons_True, filter_cons_False by (done || by intros []).
    by rewrite fmap_cons, Haccs, Hachs.
  - rewrite filter_cons_False, filter_cons_True by done.
    by rewrite fmap_cons, Haccs, Hachs.
Qed.

(** X19. The two achievement columns of a CSV line: the items of the
    record whose id is in the reference map are split by the type of their
    reference entry, accreditations in one column and everything else in
    the other, items with an unknown id are left out, and each column
    lists the names in ascending order, joined with ", ". A record without
    an achievement list gets two empty columns. *)
Theorem achievement_columns (r : record) (achievements_map : gmap Z reference) row :
  process_provider_record_for_csv r achievements_map = Ok row →
  (∀ items, lookup r "achievements" = Some (JList items) →
     let recognised :=
       omap (λ item, match dict_get item "id" JNull
                           ≫= find_achievement achievements_map with
                     | Ok found => found
                     | Crash _ => None
                     end) items in
     let accs :=
       ref_name <$> filter (λ info, ref_type info = "ACCREDITATION") recognised in
     let achs :=
       ref_name <$> filter (λ info, ref_type info ≠ "ACCREDITATION") recognised in
     accreditations row = PyStr.join ", " (sorted accs) ∧
     achievements row = PyStr.join ", " (sorted achs) ∧
     sorted accs ≡ₚ accs ∧ Sorted Pandas.string_le (sorted accs) ∧
     sorted achs ≡ₚ achs ∧ Sorted Pandas.string_le (sorted achs)) ∧
  ((∀ items, lookup r "achievements" ≠ Some (JList items)) →
   accreditations row = EmptyString ∧ achievements row = EmptyString).
Proof.
  intros Hrow.
  unfold process_provider_record_for_csv, mbind, outcome_bind in Hrow.
  split.
  - intros items Hitems recognised accs achs. rewrite Hitems in Hrow.
    destruct (classify achievements_map items) as [[accs' achs']|e] eqn:Hc; [|done].
    injection Hrow as <-. simpl.
    destruct (classify_spec _ _ _ _ Hc) as [-> ->].
    fold recognised. fold accs. fold achs. unfold sorted.
    split; [done|split; [done|]].
    split; [apply merge_sort_Permutation|].
    split; [apply Sorted_merge_sort, string_le_total|].
    split; [apply merge_sort_Permutation|apply Sorted_merge_sort, string_le_total].
  - intros Hnone.
    destruct (lookup r "achievements") as [[| | | | |items|]|];
      try (by injection Hrow as <-).
    by destruct (Hnone items).
Qed.

Lemma process_records_spec (achievements_map : gmap Z reference)
    (provider_data : list record) rows features :
  process_records achievements_map provider_data = Ok (rows, features) →
  List.length rows = List.length provider_data ∧
  collect_features provider_data = Done features.
Proof.
  revert rows features.
  induction provider_data as [|r rest IH]; intros rows features.
  { by intros [= <- <-]. }
  simpl. unfold mbind, outcome_bind, result_bind, lift.
  destruct (process_provider_record_for_csv r achievements_map) as [row|e]; [|done].
  destruct (create_geojson_feature r) as [o|e]; [|done].
  destruct (process_records achievements_map rest) as [[rows' fs']|e]; [|done].
  destruct (IH rows' fs' eq_refl) as [Hlen ->].
  intros [= <- <-]. simpl. by rewrite Hlen.
Qed.

Lemma scrape_spec (achievements_map : gmap Z reference) (counties : list string)
    fetch rows features :
  scrape achievements_map counties fetch = Ok (rows, features) →
  List.length rows =
    List.length (counties ≫= λ county,
                   match fetch county with
                   | Providers provider_data => provider_data
                   | _ => []
                   end) ∧
  features =
    counties ≫= λ county,
      match fetch county with
      | Providers provider_data =>
          match collect_features provider_data with
          | Done fs => fs
          | Raise _ => []
          end
      | _ => []
      end.
Proof.
  revert rows features. induction counties as [|county rest IH]; intros rows features.
  { by intros [= <- <-]. }
  cbn [scrape]. rewrite !bind_cons. unfold mbind at 1 2, outcome_bind.
  destruct (fetch county) as [| |provider_data].
  - destruct (scrape achievements_map rest fetch) as [[rows' fs']|e]; [|done].
    intros [= <- <-]. apply (IH rows' fs' eq_refl).
  - destruct (scrape achievements_map rest fetch) as [[rows' fs']|e]; [|done].
    intros [= <- <-]. apply (IH rows' fs' eq_refl).
  - destruct (process_records achievements_map provider_data)
      as [[rows0 fs0]|e] eqn:Hhere; [|done].
    destruct (scrape achievements_map rest fetch) as [[rows' fs']|e]; [|done].
    intros [= <- <-]. simpl.
    destruct (process_records_spec _ _ _ _ Hhere) as [Hlen ->].
    destruct (IH rows' fs' eq_refl) as [Hlen' ->].
    by rewrite !length_app, Hlen, Hlen'.
Qed.

(** X20. The childcare run writes nothing when both of its files exist.
    Otherwise, when it ends without an exception, the CSV file has one line
    per provider record of the counties that answered and is written only
    if there is one; the GeoJSON file has the features of those records in
    county order and is written only if there is one. A county whose
    request or decoding fails is passed over. *)
Theorem childcare_run_writes csv_exists geojson_exists (counties : list string)
    fetch w :
  run csv_exists geojson_exists counties fetch = Ok w →
  (csv_exists = true → geojson_exists = true →
   csv_file w = None ∧ geojson_file w = None) ∧
  (csv_exists = false ∨ geojson_exists = false →
   let records :=
     counties ≫= λ county,
       match fetch county with
       | Providers provider_data => provider_data
       | _ => []
       end in
   let features :=
     counties ≫= λ county,
       match fetch county with
       | Providers provider_data =>
           match collect_features provider_data with
           | Done fs => fs
           | Raise _ => []
           end
       | _ => []
       end in
   match csv_file w with
   | Some rows => List.length rows = List.length records ∧ records ≠ []
   | None => records = []
   end ∧
   geojson_file w = match features with [] => None | _ => Some features end).
Proof.
  intros Hrun. unfold run in Hrun. split.
  - intros -> ->. by injection Hrun as <-.
  - intros Hmissing records features.
    assert (csv_exists && geojson_exists = false) as Hnot.
    { destruct Hmissing as [-> | ->]; [done|apply andb_false_r]. }
    rewrite Hnot in Hrun. unfold mbind, outcome_bind in Hrun.
    destruct (scrape _ counties fetch) as [[rows fs]|e] eqn:Hscrape; [|done].
    injection Hrun as <-. simpl.
    destruct (scrape_spec _ _ _ _ _ Hscrape) as [Hlen Hfs].
    fold records in Hlen. fold features in Hfs. split.
    + destruct rows as [|row rows]; simpl in Hlen.
      * by destruct records.
      * split; [done|]. by destruct records.
    + rewrite <- Hfs. by destruct fs.
Qed.
End ChildcareScraper.

(** ** The lines of resources.csv *)

Section OsmRows.
Context {P : PyNum} {C : PyCompare P} {F : PyFormat P}.
Import MarylandExcel Py Osm.

Lemma element_row_fields resource_type el r :
  element_row resource_type el = Ok (Some r) →
  type r = resource_type ∧
  (is_empty_str (name r) = true → is_empty_str (tag r) = true).
Proof.
  unfold element_row, mbind, outcome_bind.
  destruct (element_coordinates el) as [[[lat lng]|]|e]; try done.
  destruct (dict_get el "tags" _) as [tags|e]; [|done].
  destruct (first_non_empty tags ["name"; "operator"] _) as [name|e]; [|done].
  destruct (first_non_empty tags ["shop"; "amenity"; "healthcare"] _) as [tag|e];
    [|done].
  intros [= <-]. simpl. split; [done|].
  destruct (is_empty_str name) eqn:Hname; simpl; [|congruence].
  destruct (is_empty_str tag) eqn:Htag; simpl; [done|].
  intros Hunnamed. by cbv in Hunnamed.
Qed.

Lemma resources_by_type_keys (resource_types : list (string * list string))
    overpass by_type :
  resources_by_type resource_types overpass = Ok by_type →
  by_type.*1 = resource_types.*1.
Proof.
  revert by_type.
  induction resource_types as [|[t queries] rest IH]; intros by_type; simpl.
  { by intros [= <-]. }
  unfold mbind, outcome_bind.
  match goal with |- context [match ?c with Ok _ => _ | Crash _ => _ end] =>
    destruct c as [elements|e] end; [|done].
  destruct (resources_by_type rest overpass) as [others|e]; [|done].
  intros [= <-]. simpl. f_equal. by apply IH.
Qed.

Lemma rows_of_spec (by_type : list (string * json)) rows r :
  rows_of by_type = Ok rows → r ∈ rows →
  ∃ elements items el,
    (type r, elements) ∈ by_type ∧ iter elements = Ok items ∧ el ∈ items ∧
    element_row (type r) el = Ok (Some r).
Proof.
  revert rows. induction by_type as [|[t elements] rest IH]; intros rows; simpl.
  { intros [= <-] ?%elem_of_nil. done. }
  unfold mbind, outcome_bind.
  destruct (iter elements) as [items|e] eqn:Hitems; [|done].
  destruct (collect (element_row t) items) as [here|e] eqn:Hhere; [|done].
  destruct (rows_of rest) as [others|e]; [|done].
  intros [= <-] [Hr|Hr]%elem_of_app.
  - destruct (collect_spec _ _ _ Hhere) as [_ ->].
    apply list_elem_of_omap in Hr as (el & Hel & Hmade).
    destruct (element_row t el) as [o|e] eqn:Hrow; [|done]. subst o.
    destruct (element_row_fields _ _ _ Hrow) as [-> _].
    exists elements, items, el. split; [by left|done].
  - destruct (IH others eq_refl Hr) as (elements' & items' & el & ? & ? & ? & ?).
    exists elements', items', el. split; [by right|done].
Qed.

(** X21. Every line handed to the CSV writer has one of the seven keys of
    [RESOURCE_TYPES] as its type, and has an empty name only if its tag is
    empty too: an element without a name or operator is named after its
    tag. *)
Theorem osm_rows_typed_and_named overpass rows r :
  cbc_rows overpass = Ok rows → r ∈ rows →
  type r ∈ ["grocery"; "laundry"; "home_repair"; "auto_repair"; "pharmacy";
            "barber_beauty"; "medical"] ∧
  (is_empty_str (name r) = true → is_empty_str (tag r) = true).
Proof.
  unfold cbc_rows, mbind, outcome_bind.
  destruct (resources_by_type RESOURCE_TYPES overpass) as [by_type|e] eqn:Hby;
    [|done].
  intros Hrows Hr.
  destruct (rows_of_spec _ _ _ Hrows Hr) as (elements & items & el & Hin & _ & _ & Hrow).
  split.
  - apply resources_by_type_keys in Hby.
    change (type r ∈ RESOURCE_TYPES.*1). rewrite <- Hby.
    apply list_elem_of_fmap. by exists (type r, elements).
  - by destruct (element_row_fields _ _ _ Hrow).
Qed.

Lemma element_coordinates_top members a b :
  lookup members "lat" = Some a → lookup members "lon" = Some b →
  element_coordinates (JObject members) = Ok (Some (a, b)).
Proof.
  intros Hlat Hlon. unfold element_coordinates. simpl. by rewrite Hlat, Hlon.
Qed.

Lemma element_coordinates_none members :
  lookup members "lat" = None ∨ lookup members "lon" = None →
  lookup members "center" = None →
  element_coordinates (JObject members) = Ok None.
Proof.
  intros Hmissing Hcenter. unfold element_coordinates. simpl.
  rewrite Hcenter. simpl.
  destruct Hmissing as [-> | ->]; simpl; [done|].
  by destruct (lookup members "lat").
Qed.

(** X22. Where the coordinates of a line come from: an element that has
    both [lat] and [lon] gives them, whatever its [center]; an element that
    lacks one of them and has no [center] gives no line. *)
Theorem osm_row_coordinates resource_type members :
  (∀ a b r,
     lookup members "lat" = Some a → lookup members "lon" = Some b →
     element_row resource_type (JObject members) = Ok (Some r) →
     lat r = a ∧ lng r = b) ∧
  (lookup members "lat" = None ∨ lookup members "lon" = None →
   lookup members "center" = None →
   element_row resource_type (JObject members) = Ok None).
Proof.
  split.
  - intros a b r Hlat Hlon. unfold element_row.
    rewrite (element_coordinates_top _ _ _ Hlat Hlon).
    unfold mbind, outcome_bind.
    destruct (dict_get (JObject members) "tags" _) as [tags|e]; [|done].
    destruct (first_non_empty tags ["name"; "operator"] _) as [name|e]; [|done].
    destruct (first_non_empty tags ["shop"; "amenity"; "healthcare"] _)
      as [tag|e]; [|done].
    by intros [= <-].
  - intros Hmissing Hcenter. unfold element_row.
    by rewrite (element_coordinates_none _ Hmissing Hcenter).
Qed.
End OsmRows.

(** ** Worked instances of the further properties *)

Section FurtherInstances.
Import CombineData MarylandExcel.

Lemma cached_run_witness :
  grantees_raw_geojson Sample.complete = Holds Sample.nested ∧
  run false RequestException Sample.complete =
    run false (Text None) Sample.complete ∧
  grantees_raw_geojson (run false RequestException Sample.complete).2 =
    Holds Sample.nested.
Proof.
  split; [reflexivity|].
  exact (readable_cache_ignores_response Sample.complete Sample.nested eq_refl
           RequestException (Text None)).
Defined.

Lemma stale_cache_witness :
  grantees_raw_geojson Sample.complete = Holds Sample.nested ∧
  run true RequestException Sample.complete = run false (Text None) Sample.complete.
Proof.
  split; [reflexivity|].
  exact (failed_refresh_uses_stale_cache Sample.complete Sample.nested eq_refl
           (Text None)).
Defined.

Lemma forced_download_witness :
  grantees_raw_geojson
    (run true (Text (Some Sample.one_region)) Sample.complete).2 =
    Holds Sample.one_region ∧
  run true (Text (Some Sample.one_region)) Sample.complete =
    run false RequestException (set_cache (Holds Sample.one_region) Sample.complete).
Proof.
  destruct (download_replaces_cache true Sample.complete Sample.one_region
              (or_introl eq_refl)) as [Hcache Hrun].
  split; [exact Hcache|exact (Hrun RequestException)].
Defined.

Lemma bad_download_witness :
  run true (Text None) Sample.complete =
    (Raised cache_path, set_cache Unreadable Sample.complete).
Proof.
  exact (unparsable_download_overwrites_cache true Sample.complete
           (or_introl eq_refl)).
Defined.

Lemma bank_file_witness :
  Sample.bank_joined ∈ Sample.joined ∧
  jtype Sample.bank_joined ≠ "grantees" ∧
  write_all (outputs Sample.joined (grantees Sample.nested)) ∅
    !! (jtype Sample.bank_joined +:+ ".geojson") =
    Some (PointsGeoJSON (points_subset (jtype Sample.bank_joined) Sample.joined)).
Proof.
  assert (Hin : Sample.bank_joined ∈ Sample.joined)
    by (vm_compute; do 3 right; left).
  assert (Hother : jtype Sample.bank_joined ≠ "grantees") by (vm_compute; discriminate).
  split; [exact Hin|split; [exact Hother|]].
  exact (proj1 (proj2 (proj2 (directory_after_writes Sample.joined
                                (grantees Sample.nested) ∅)))
           Sample.bank_joined Hin Hother).
Defined.

Lemma daycare_columns_witness :
  let p := @Build_canonical_point Rect.geo (Some "Little Stars") "childcare"
             (Some "child_care_center") None None None (Some 4%Z) (2, 3)%Z in
  p ∈ Sample.points ∧ is_Some (quality p) ∧ type p = "childcare".
Proof.
  intros p.
  assert (Hin : p ∈ Sample.points) by (vm_compute; do 4 right; left).
  assert (Hquality : is_Some (quality p)) by (by exists 4%Z).
  split; [exact Hin|split; [exact Hquality|]].
  exact (proj1 (proj2 (source_specific_columns _ _ _ _ _ _ p Hin)) Hquality).
Defined.

Lemma daycare_label_witness :
  cc_tag_label Sample.daycare = Some "Child Care Center" ∧
  ∀ p, p ∈ childcare_gdf [Sample.daycare] →
       tag_label (add_labels p) = Some "Child Care Center".
Proof.
  split; [reflexivity|].
  exact (proj2 (childcare_label_round_trip Sample.daycare) "Child Care Center"
           eq_refl eq_refl eq_refl).
Defined.

Lemma cafb_names_witness :
  let written :=
    [{| FoodBank.geometry := Cases.point_geometry 1 1;
        FoodBank.type := "Capital Area Food Bank Partner Agency";
        FoodBank.name := JStr "Food Pantry" |};
     {| FoodBank.geometry := Cases.point_geometry 3 3;
        FoodBank.type := "Capital Area Food Bank Partner Agency";
        FoodBank.name := JStr "" |}] in
  FoodBank.cafb_run (C := WholeCompare.compare) (Py.Body Cases.cafb_data) =
    Py.Ok (Some written) ∧
  ∀ f, f ∈ written →
       FoodBank.type f = "Capital Area Food Bank Partner Agency" ∧
       ∃ s, FoodBank.name f = JStr s ∧ Py.strip s = s.
Proof.
  intros written.
  assert (Hrun : FoodBank.cafb_run (C := WholeCompare.compare)
                   (Py.Body Cases.cafb_data) = Py.Ok (Some written))
    by reflexivity.
  split; [exact Hrun|].
  exact (proj2 (cafb_written_features (C := WholeCompare.compare)
                  Cases.cafb_data written Hrun)).
Defined.

Lemma cafb_blank_name_witness :
  FoodBank.cafb_feature (C := WholeCompare.compare) (Cases.site (JStr "  ") 3 3) =
    Py.Ok (Some {| FoodBank.geometry := Cases.point_geometry 3 3;
                   FoodBank.type := "Capital Area Food Bank Partner Agency";
                   FoodBank.name := JStr EmptyString |}).
Proof.
  apply (cafb_blank_name_is_written (C := WholeCompare.compare) _
           (JObject [("name", JStr "  ")]) "  ");
    [reflexivity..|discriminate|reflexivity].
Defined.

Lemma cafb_numeric_name_witness :
  FoodBank.cafb_run (C := WholeCompare.compare) (Py.Body Cases.cafb_numeric_name) =
    Py.Crash Py.AttributeError.
Proof.
  assert (Hbefore : Forall (λ x, ∃ o, FoodBank.cafb_feature
                                        (C := WholeCompare.compare) x = Py.Ok o)
                      [Cases.site (JStr "Food Pantry") 1 1]).
  { apply Forall_cons_2; [|apply Forall_nil_2].
    exists (Some {| FoodBank.geometry := Cases.point_geometry 1 1;
                    FoodBank.type := "Capital Area Food Bank Partner Agency";
                    FoodBank.name := JStr "Food Pantry" |}).
    reflexivity. }
  apply (cafb_non_string_name_crashes (C := WholeCompare.compare)
           Cases.cafb_numeric_name [Cases.site (JStr "Food Pantry") 1 1]
           (Cases.site (JInt 7) 2 2) [] (JObject [("name", JInt 7)]) (JInt 7)
           eq_refl Hbefore eq_refl eq_refl eq_refl).
  intros s. discriminate.
Defined.

Lemma mfb_layer_witness :
  let written :=
    [{| FoodBank.geometry := Cases.point_geometry 4 4;
        FoodBank.type := "The Emergency Food Assistance Program: Emergency Feeding Organization";
        FoodBank.name := JStr "Soup Kitchen" |};
     {| FoodBank.geometry := Cases.point_geometry 4 4;
        FoodBank.type := "The Emergency Food Assistance Program: Emergency Feeding Organization";
        FoodBank.name := JNull |}] in
  FoodBank.fetch_and_process_layer Cases.tefap (Py.Body Cases.mfb_data) =
    Py.Ok written ∧
  List.length written = 2%nat.
Proof.
  intros written.
  assert (Hlayer : FoodBank.fetch_and_process_layer Cases.tefap
                     (Py.Body Cases.mfb_data) = Py.Ok written) by reflexivity.
  split; [exact Hlayer|].
  exact (proj1 (mfb_layer_keeps_every_feature Cases.tefap Cases.mfb_data
                  (JList [Cases.mfb_site (JStr " Soup Kitchen"); Cases.mfb_site JNull])
                  [Cases.mfb_site (JStr " Soup Kitchen"); Cases.mfb_site JNull]
                  written eq_refl eq_refl Hlayer)).
Defined.

Lemma mfb_all_fail_witness :
  FoodBank.mfb_run (P := Whole.num) [Cases.tefap] (λ _, Py.RequestException) =
    Py.Ok [].
Proof.
  apply (proj2 (mfb_run_concatenates (P := Whole.num) [Cases.tefap]
                  (λ _, Py.RequestException))).
  intros layer _. by left.
Defined.



Lemma plural_acronym_witness :
  FoodBank.search_word "RDO" false "Network Partners: RDOs" = false ∧
  FoodBank.expand_title "Network Partners: RDOs" = "Network Partners: RDOs".
Proof.
  assert (Hnone : Forall (λ item, FoodBank.search_word item.1 false
                                    "Network Partners: RDOs" = false)
                    FoodBank.ACRONYM_MAP)
    by (repeat (apply Forall_cons_2; [reflexivity|]); apply Forall_nil_2).
  split; [reflexivity|].
  exact (expand_title_without_acronym "Network Partners: RDOs" Hnone).
Defined.

Lemma montessori_lookup_witness :
  let ams := {| ExcelRun.ref_name := "American Montessori Society (AMS)";
                ExcelRun.ref_id := 42; ExcelRun.ref_type := "ACCREDITATION" |} in
  ams ∈ ExcelRun.REFERENCE_DATA ∧
  ExcelRun.build_lookup_maps ExcelRun.REFERENCE_DATA !! 42%Z = Some ams.
Proof.
  intros ams.
  assert (Hin : ams ∈ ExcelRun.REFERENCE_DATA) by (right; left).
  split; [exact Hin|].
  exact (proj2 (build_lookup_maps_lookup ExcelRun.REFERENCE_DATA 42) ams Hin).
Defined.

Lemma awarded_columns_witness :
  ExcelRun.process_provider_record_for_csv (C := WholeCompare.compare)
    Cases.awarded (ExcelRun.build_lookup_maps ExcelRun.REFERENCE_DATA) =
    Py.Ok Cases.awarded_row ∧
  ExcelRun.accreditations Cases.awarded_row =
    PyStr.join ", " (ExcelRun.sorted ["American Montessori Society (AMS)"]) ∧
  ExcelRun.achievements Cases.awarded_row =
    PyStr.join ", " (ExcelRun.sorted ["Accredited Program"]).
Proof.
  assert (Hrow : ExcelRun.process_provider_record_for_csv
                   (C := WholeCompare.compare) Cases.awarded
                   (ExcelRun.build_lookup_maps ExcelRun.REFERENCE_DATA) =
                 Py.Ok Cases.awarded_row) by reflexivity.
  split; [exact Hrow|].
  destruct (proj1 (achievement_columns (C := WholeCompare.compare) Cases.awarded
                     (ExcelRun.build_lookup_maps ExcelRun.REFERENCE_DATA)
                     Cases.awarded_row Hrow)
              [JObject [("id", JInt 49)]; JObject [("id", JInt 42)];
               JObject [("id", JInt 7)]] eq_refl)
    as (Haccs & Hachs & _).
  split; [exact Haccs|exact Hachs].
Defined.

Lemma howard_run_witness :
  let w := {| ExcelRun.csv_file := Some [Cases.awarded_row; Cases.nowhere_row];
              ExcelRun.geojson_file := Some [Cases.awarded_feature] |} in
  ExcelRun.run (C := WholeCompare.compare) false true ["Kent"; "Howard"]
    Cases.fetch = Py.Ok w ∧
  ExcelRun.geojson_file w = Some [Cases.awarded_feature].
Proof.
  intros w.
  assert (Hrun : ExcelRun.run (C := WholeCompare.compare) false true
                   ["Kent"; "Howard"] Cases.fetch = Py.Ok w) by reflexivity.
  split; [exact Hrun|].
  exact (proj2 (proj2 (childcare_run_writes (C := WholeCompare.compare)
                         false true ["Kent"; "Howard"] Cases.fetch w Hrun)
                  (or_introl eq_refl))).
Defined.

Lemma bakery_row_witness :
  Osm.cbc_rows (C := WholeCompare.compare) (F := WholeCompare.format)
    Cases.overpass =
    Py.Ok [Cases.node_row;
           {| Osm.name := JStr "Sunrise"; Osm.type := "grocery";
              Osm.tag := JStr "marketplace";
              Osm.lat := JInt 38; Osm.lng := JInt (-77) |}] ∧
  Osm.type Cases.node_row ∈
    ["grocery"; "laundry"; "home_repair"; "auto_repair"; "pharmacy";
     "barber_beauty"; "medical"].
Proof.
  assert (Hrows : Osm.cbc_rows (C := WholeCompare.compare)
                    (F := WholeCompare.format) Cases.overpass =
    Py.Ok [Cases.node_row;
           {| Osm.name := JStr "Sunrise"; Osm.type := "grocery";
              Osm.tag := JStr "marketplace";
              Osm.lat := JInt 38; Osm.lng := JInt (-77) |}])
    by reflexivity.
  split; [exact Hrows|].
  exact (proj1 (osm_rows_typed_and_named (C := WholeCompare.compare)
                  (F := WholeCompare.format) Cases.overpass _
                  Cases.node_row Hrows (list_elem_of_here _ _))).
Defined.

Lemma relation_without_coordinates_witness :
  Osm.element_row (P := Whole.num) (F := WholeCompare.format)
    "grocery" Cases.relation = Py.Ok None.
Proof.
  exact (proj2 (osm_row_coordinates (P := Whole.num)
                  (F := WholeCompare.format) "grocery"
                  [("type", JStr "relation");
                   ("tags", JObject [("shop", JStr "deli")])])
           (or_introl eq_refl) eq_refl).
Defined.
End FurtherInstances.
